(** * elektrik_sebeke_akis: a shallow embedding of [ElektrikSebekesi]

    The development follows [elektrik_sebeke_akis.py]: the network is a
    [networkx.DiGraph] held in [self.G], the last solver results are cached
    in [self.sonuclar], and the methods [dugum_ekle], [hat_ekle], [akis_ata],
    [min_maliyet_akis_hesapla] and [darbogazlari_bul] read and mutate them.

    Conventions of the embedding:
    - Python numbers are exact rationals ([Q]); Python integers embed
      exactly and binary rounding of floats is not modelled.
    - A Python [dict] whose iteration order is observable (the node and
      adjacency dictionaries of the graph, the flow dictionaries) is an
      association list in insertion order with unique keys.
    - A method that mutates [self] is a function from the old object to the
      new one; text written by [print] is returned as a list of events.
    - [nx.network_simplex] is library code: it is a parameter of the solve
      method. *)

From Stdlib Require Import QArith Qabs Lqa Sorted.
From stdpp Require Import base list strings gmap.

(** ** Node identifiers

    networkx accepts any hashable value as a node.  The program uses strings;
    integers and pairs are kept because the write-back loop of the solve
    method looks the pair [(u, v)] up in a dictionary keyed by nodes. *)

Inductive dugum_id : Type :=
  | Ad (s : string)
  | No (z : Z)
  | Demet (u v : dugum_id).

#[global] Instance dugum_id_eq_dec : EqDecision dugum_id.
Proof. solve_decision. Defined.

(** An identifier that is not a tuple. *)
Definition yalin (n : dugum_id) : Prop :=
  match n with Demet _ _ => False | _ => True end.

(** ** Insertion-ordered dictionaries *)

Module Sozluk.
Section sozluk.
Context {K V : Type} `{EqDecision K}.

(** [d.get(k)] *)
Fixpoint bul (d : list (K * V)) (k : K) : option V :=
  match d with
  | [] => None
  | (k', v) :: r => if decide (k = k') then Some v else bul r k
  end.

(** [k in d] *)
Definition var (d : list (K * V)) (k : K) : bool :=
  match bul d k with Some _ => true | None => false end.

(** [d[k] = v]: an existing key keeps its position, a new key goes last. *)
Fixpoint koy (d : list (K * V)) (k : K) (v : V) : list (K * V) :=
  match d with
  | [] => [(k, v)]
  | (k', v') :: r =>
      if decide (k = k') then (k', v) :: r else (k', v') :: koy r k v
  end.

(** In-place mutation of the value stored under [k] (as in
    [d[k]['x'] = ...]); nothing happens when [k] is absent. *)
Definition degistir (d : list (K * V)) (k : K) (f : V -> V) : list (K * V) :=
  map (fun kv => if decide (kv.1 = k) then (kv.1, f kv.2) else kv) d.

Definition anahtarlar (d : list (K * V)) : list K := map fst d.
End sozluk.
End Sozluk.

(** ** The part of [networkx.DiGraph] the program uses

  [_node] maps a node to its attribute dictionary and [_adj] maps a node to
  the dictionary of its successors; both are filled in the same order.  An
  attribute dictionary is either empty ([None]: a node created implicitly by
  [add_edge]) or holds every attribute the program ever stores. *)

Module nx.
Section digraph.
Context {N E : Type}.

Record DiGraph : Type := mkDiGraph {
  _node : list (dugum_id * option N);
  _adj : list (dugum_id * list (dugum_id * E))
  }.

Definition bos : DiGraph := {| _node := []; _adj := [] |}.

(** The first step of [add_node] and [add_edge]: a node that is not yet in
    the graph gets an empty attribute dictionary and no successors. *)
Definition dugum_hazirla (g : DiGraph) (n : dugum_id) : DiGraph :=
  if Sozluk.var (_adj g) n then g
  else {| _node := _node g ++ [(n, None)]; _adj := _adj g ++ [(n, [])] |}.

(** [g.add_node(n, **attr)] where [attr] gives every attribute. *)
Definition add_node (g : DiGraph) (n : dugum_id) (attr : N) : DiGraph :=
  let g := dugum_hazirla g n in
  {| _node := Sozluk.koy (_node g) n (Some attr); _adj := _adj g |}.

(** [g.add_edge(u, v, **attr)] where [attr] gives every attribute. *)
Definition add_edge (g : DiGraph) (u v : dugum_id) (attr : E) : DiGraph :=
  let g := dugum_hazirla (dugum_hazirla g u) v in
  {| _node := _node g;
     _adj := Sozluk.degistir (_adj g) u (fun nbrs => Sozluk.koy nbrs v attr) |}.

(** [g.has_edge(u, v)] *)
Definition has_edge (g : DiGraph) (u v : dugum_id) : bool :=
  match Sozluk.bul (_adj g) u with
  | Some nbrs => Sozluk.var nbrs v
  | None => false
  end.

(** [n in g] *)
Definition has_node (g : DiGraph) (n : dugum_id) : bool := Sozluk.var (_node g) n.

(** [g.nodes(data=True)] *)
Definition nodes (g : DiGraph) : list (dugum_id * option N) := _node g.

(** [g.edges(data=True)]: sources in node order, successors in the order
    they were first added under their source. *)
Definition edges (g : DiGraph) : list (dugum_id * dugum_id * E) :=
  flat_map (fun un => map (fun ve => (un.1, ve.1, ve.2)) un.2) (_adj g).

(** [g[u][v]] *)
Definition hat_bul (g : DiGraph) (u v : dugum_id) : option E :=
  match Sozluk.bul (_adj g) u with
  | Some nbrs => Sozluk.bul nbrs v
  | None => None
  end.

(** Mutation of the attribute dictionary of the edge [(u, v)]. *)
Definition hat_degistir (g : DiGraph) (u v : dugum_id) (f : E -> E) : DiGraph :=
  {| _node := _node g;
     _adj := Sozluk.degistir (_adj g) u (fun nbrs => Sozluk.degistir nbrs v f) |}.
End digraph.
Arguments DiGraph : clear implicits.
End nx.

(** ** Numbers *)

(** [x > y] on Python numbers. *)
Definition Qgt_bool (x y : Q) : bool := negb (Qle_bool x y).

(** ** Attribute dictionaries of the network *)

(** The value of the [tip] attribute: ['kaynak'], ['hedef'] or ['transfer']. *)
Inductive dugum_tipi : Type := TipKaynak | TipHedef | TipTransfer.

(** The attributes [dugum_ekle] stores on a node. *)
Record dugum_verisi : Type := mkDugum {
  talep : Q;
  uretim : Q;
  net : Q;
  tip : dugum_tipi
}.

(** What the [akis] attribute of an edge can hold: a number, or (after the
    write-back of the solve method found the key [(u, v)] in the solver's
    dictionary) the inner dictionary stored under that key. *)
Inductive deger : Type :=
  | Sayi (q : Q)
  | IcSozluk (d : list (dugum_id * Q)).

(** The attributes [hat_ekle] stores on an edge. *)
Record hat_verisi : Type := mkHat {
  kapasite : Q;
  maliyet : Q;
  akis : deger
}.

Definition akis_yaz (x : deger) (h : hat_verisi) : hat_verisi :=
  {| kapasite := kapasite h; maliyet := maliyet h; akis := x |}.

(** The dictionary of dictionaries the solve method returns. *)
Definition akis_sozlugu : Type := list (dugum_id * list (dugum_id * deger)).

(** The values kept in [self.sonuclar]. *)
Inductive sonuc_degeri : Type :=
  | SAkislar (a : akis_sozlugu)
  | SMaliyet (q : Q).

(** ** The object *)

Record ElektrikSebekesi : Type := mkSebeke {
  ad : string;
  G : nx.DiGraph dugum_verisi hat_verisi;
  sonuclar : gmap string sonuc_degeri
}.

(** [ElektrikSebekesi(ad)] *)
Definition yeni (ad : string) : ElektrikSebekesi :=
  {| ad := ad; G := nx.bos; sonuclar := ∅ |}.

Definition G_yaz (g : nx.DiGraph dugum_verisi hat_verisi) (self : ElektrikSebekesi)
  : ElektrikSebekesi :=
  {| ad := ad self; G := g; sonuclar := sonuclar self |}.

Definition sonuclar_yaz (m : gmap string sonuc_degeri) (self : ElektrikSebekesi)
  : ElektrikSebekesi :=
  {| ad := ad self; G := G self; sonuclar := m |}.

(** ** Exceptions and printed text *)

Inductive istisna : Type :=
  | KeyError (k : string)
  | TypeError
  | NetworkXError
  | NetworkXUnfeasible
  | NetworkXUnbounded
  | NetworkXNotImplemented.

(** The outcome of a Python call: it returns a value or raises. *)
Inductive sonuc (A : Type) : Type :=
  | Dondu (a : A)
  | Firlatti (e : istisna).
Arguments Dondu {A} a.
Arguments Firlatti {A} e.

(** The two messages the class prints. *)
Inductive cikti : Type :=
  | HatBulunamadi (kaynak hedef : dugum_id)
  | AkisHatasi (e : istisna).

(** ** Building the network *)

Definition dugum_ekle (self : ElektrikSebekesi) (dugum : dugum_id) (talep uretim : Q)
  : ElektrikSebekesi :=
  let net_deger := (uretim - talep)%Q in
  let dugum_tipi :=
    if Qgt_bool net_deger 0 then TipKaynak
    else if Qgt_bool 0 net_deger then TipHedef
    else TipTransfer in
  G_yaz (nx.add_node (G self) dugum
           {| talep := talep; uretim := uretim; net := net_deger; tip := dugum_tipi |})
        self.

(** [akis] has the default [0] in the source. *)
Definition hat_ekle (self : ElektrikSebekesi) (kaynak hedef : dugum_id)
    (kapasite maliyet akis : Q) : ElektrikSebekesi :=
  G_yaz (nx.add_edge (G self) kaynak hedef
           {| kapasite := kapasite; maliyet := maliyet; akis := Sayi akis |})
        self.

Definition akis_ata (self : ElektrikSebekesi) (kaynak hedef : dugum_id) (akis_degeri : Q)
  : ElektrikSebekesi * list cikti :=
  if nx.has_edge (G self) kaynak hedef then
    (G_yaz (nx.hat_degistir (G self) kaynak hedef (akis_yaz (Sayi akis_degeri))) self, [])
  else
    (self, [HatBulunamadi kaynak hedef]).

(** ** Computations that mutate [self] and may raise

    A raised exception keeps the mutations made before it: the object that
    reaches the handler is the one the failing step left behind. *)

Definition Islem (A : Type) : Type := ElektrikSebekesi -> ElektrikSebekesi * sonuc A.

Definition don {A : Type} (a : A) : Islem A := fun self => (self, Dondu a).

Definition yukselt {A : Type} (r : sonuc A) : Islem A := fun self => (self, r).

Definition bagla {A B : Type} (m : Islem A) (k : A -> Islem B) : Islem B :=
  fun self =>
    match m self with
    | (self', Dondu a) => k a self'
    | (self', Firlatti e) => (self', Firlatti e)
    end.

Definition oku : Islem ElektrikSebekesi := fun self => (self, Dondu self).

Definition guncelle (f : ElektrikSebekesi -> ElektrikSebekesi) : Islem unit :=
  fun self => (f self, Dondu tt).

Declare Scope islem_scope.
Delimit Scope islem_scope with islem.
Notation "x <- m ;; k" := (bagla m (fun x => k))
  (at level 100, m at next level, right associativity) : islem_scope.
Notation "m ;;; k" := (bagla m (fun _ => k))
  (at level 100, right associativity) : islem_scope.

(** Sequencing of outcomes that do not touch [self]. *)
Definition sonuc_bagla {A B : Type} (r : sonuc A) (k : A -> sonuc B) : sonuc B :=
  match r with
  | Dondu a => k a
  | Firlatti e => Firlatti e
  end.

(** ** The optimisation graph handed to the solver *)

Record mcf_dugum : Type := mkMcfDugum { demand : Q }.
Record mcf_hat : Type := mkMcfHat { capacity : Q; weight : Q }.

Definition mcf_grafik : Type := nx.DiGraph mcf_dugum mcf_hat.

(** What [nx.network_simplex] returns: the cost and a dictionary of
    dictionaries keyed by nodes, [flowDict[u][v]] being the flow on [(u, v)]. *)
Definition akis_tablosu : Type := list (dugum_id * list (dugum_id * Q)).

(** One round of the first loop: [attr['tip']] raises [KeyError] on a node
    without attributes. *)
Definition mcf_dugum_ekle (mcf_graph : mcf_grafik) (na : dugum_id * option dugum_verisi)
  : sonuc mcf_grafik :=
  match na.2 with
  | None => Firlatti (KeyError "tip")
  | Some attr =>
      match tip attr with
      | TipKaynak => Dondu (nx.add_node mcf_graph na.1 {| demand := - net attr |})
      | TipHedef => Dondu (nx.add_node mcf_graph na.1 {| demand := Qabs (net attr) |})
      | TipTransfer => Dondu (nx.add_node mcf_graph na.1 {| demand := 0 |})
      end
  end.

Fixpoint mcf_dugumleri_ekle (mcf_graph : mcf_grafik)
    (ns : list (dugum_id * option dugum_verisi)) : sonuc mcf_grafik :=
  match ns with
  | [] => Dondu mcf_graph
  | na :: r => sonuc_bagla (mcf_dugum_ekle mcf_graph na) (fun g => mcf_dugumleri_ekle g r)
  end.

(** One round of the second loop. *)
Definition mcf_hat_ekle (mcf_graph : mcf_grafik) (e : dugum_id * dugum_id * hat_verisi)
  : mcf_grafik :=
  nx.add_edge mcf_graph e.1.1 e.1.2
    {| capacity := kapasite e.2; weight := maliyet e.2 |}.

(** Lines 76-90: the graph built from the nodes and edges of [self.G]. *)
Definition mcf_grafik_kur (g : nx.DiGraph dugum_verisi hat_verisi) : sonuc mcf_grafik :=
  sonuc_bagla (mcf_dugumleri_ekle nx.bos (nx.nodes g))
    (fun mcf_graph => Dondu (foldl mcf_hat_ekle mcf_graph (nx.edges g))).

(** ** Writing the flows back and collecting them *)

(** Lines 97-100: [(u, v) in flow_dict] looks the pair up among the keys of
    the solver's dictionary. *)
Definition aktarilan_akis (flow_dict : akis_tablosu) (u v : dugum_id) : deger :=
  match Sozluk.bul flow_dict (Demet u v) with
  | Some d => IcSozluk d
  | None => Sayi 0
  end.

(** Lines 96-100, over the edges enumerated when the loop starts. *)
Fixpoint akislari_aktar (flow_dict : akis_tablosu)
    (es : list (dugum_id * dugum_id * hat_verisi)) : Islem unit :=
  match es with
  | [] => don tt
  | e :: r =>
      (guncelle (fun self =>
         G_yaz (nx.hat_degistir (G self) e.1.1 e.1.2
                  (akis_yaz (aktarilan_akis flow_dict e.1.1 e.1.2))) self) ;;;
       akislari_aktar flow_dict r)%islem
  end.

(** One round of the loop of lines 104-107. *)
Definition akislar_ekle (akislar : akis_sozlugu) (e : dugum_id * dugum_id * hat_verisi)
  : akis_sozlugu :=
  let akislar := if Sozluk.var akislar e.1.1 then akislar else Sozluk.koy akislar e.1.1 [] in
  Sozluk.degistir akislar e.1.1 (fun d => Sozluk.koy d e.1.2 (akis e.2)).

Definition akislari_topla (es : list (dugum_id * dugum_id * hat_verisi)) : akis_sozlugu :=
  foldl akislar_ekle [] es.

(** ** The solve method *)

Section cozucu.
Variable network_simplex : mcf_grafik -> sonuc (Q * akis_tablosu).

(** The body of the [try] block, lines 75-113. *)
Definition min_maliyet_govde : Islem (akis_sozlugu * Q) :=
  (self <- oku ;;
   mcf_graph <- yukselt (mcf_grafik_kur (G self)) ;;
   cozum <- yukselt (network_simplex mcf_graph) ;;
   akislari_aktar cozum.2 (nx.edges (G self)) ;;;
   self <- oku ;;
   let akislar := akislari_topla (nx.edges (G self)) in
   guncelle (fun self =>
     sonuclar_yaz (<["akislar" := SAkislar akislar]> (sonuclar self)) self) ;;;
   guncelle (fun self =>
     sonuclar_yaz (<["toplam_maliyet" := SMaliyet cozum.1]> (sonuclar self)) self) ;;;
   don (akislar, cozum.1))%islem.

(** [min_maliyet_akis_hesapla]: the handler of line 115 catches every
    exception, prints it and returns [({}, 0)]. *)
Definition min_maliyet_akis_hesapla (self : ElektrikSebekesi)
  : ElektrikSebekesi * list cikti * (akis_sozlugu * Q) :=
  match min_maliyet_govde self with
  | (self', Dondu r) => (self', [], r)
  | (self', Firlatti e) => (self', [AkisHatasi e], ([], 0%Q))
  end.
End cozucu.

(** ** Bottlenecks *)

Module Darbogaz.
(** One entry of the list [darbogazlari_bul] returns. *)
Record t : Type := mk {
  hat : dugum_id * dugum_id;
  kapasite : Q;
  akis : Q;
  kullanim_yuzdesi : Q
}.
End Darbogaz.

(** Lines 130-142: one round of the loop.  [akis / kapasite] raises
    [TypeError] when [akis] is not a number. *)
Definition darbogaz_ekle (esik_yuzdesi : Q) (darbogazlar : list Darbogaz.t)
    (e : dugum_id * dugum_id * hat_verisi) : sonuc (list Darbogaz.t) :=
  if Qgt_bool (kapasite e.2) 0 then
    match akis e.2 with
    | Sayi a =>
        let kullanim_yuzdesi := ((a / kapasite e.2) * 100)%Q in
        if Qle_bool esik_yuzdesi kullanim_yuzdesi then
          Dondu (darbogazlar ++
                 [ {| Darbogaz.hat := (e.1.1, e.1.2);
                      Darbogaz.kapasite := kapasite e.2;
                      Darbogaz.akis := a;
                      Darbogaz.kullanim_yuzdesi := kullanim_yuzdesi |} ])
        else Dondu darbogazlar
    | IcSozluk _ => Firlatti TypeError
    end
  else Dondu darbogazlar.

Fixpoint darbogaz_tara (esik_yuzdesi : Q) (darbogazlar : list Darbogaz.t)
    (es : list (dugum_id * dugum_id * hat_verisi)) : sonuc (list Darbogaz.t) :=
  match es with
  | [] => Dondu darbogazlar
  | e :: r =>
      sonuc_bagla (darbogaz_ekle esik_yuzdesi darbogazlar e)
        (fun d => darbogaz_tara esik_yuzdesi d r)
  end.

(** [l.sort(key=..., reverse=True)]: Python's sort is stable, also with
    [reverse=True], so entries with equal keys keep their order.  The result
    of a stable sort does not depend on the algorithm; insertion is used. *)
Fixpoint yerlestir (x : Darbogaz.t) (l : list Darbogaz.t) : list Darbogaz.t :=
  match l with
  | [] => [x]
  | y :: r =>
      if Qle_bool (Darbogaz.kullanim_yuzdesi y) (Darbogaz.kullanim_yuzdesi x)
      then x :: y :: r
      else y :: yerlestir x r
  end.

Definition sirala (l : list Darbogaz.t) : list Darbogaz.t := foldr yerlestir [] l.

(** [esik_yuzdesi] has the default [90] in the source. *)
Definition darbogazlari_bul (self : ElektrikSebekesi) (esik_yuzdesi : Q)
  : sonuc (list Darbogaz.t) :=
  sonuc_bagla (darbogaz_tara esik_yuzdesi [] (nx.edges (G self)))
    (fun darbogazlar => Dondu (sirala darbogazlar)).

(** ** [ornek_sebeke_olustur] *)

Definition ornek_sebeke_olustur : ElektrikSebekesi :=
  let sebeke := yeni "Basit Örnek Şebeke" in
  let sebeke := dugum_ekle sebeke (Ad "A") 0 100 in
  let sebeke := dugum_ekle sebeke (Ad "B") 0 150 in
  let sebeke := dugum_ekle sebeke (Ad "C") 50 0 in
  let sebeke := dugum_ekle sebeke (Ad "D") 120 0 in
  let sebeke := dugum_ekle sebeke (Ad "E") 80 0 in
  let sebeke := dugum_ekle sebeke (Ad "F") 0 0 in
  let sebeke := hat_ekle sebeke (Ad "A") (Ad "F") 80 2 30 in
  let sebeke := hat_ekle sebeke (Ad "A") (Ad "C") 40 3 20 in
  let sebeke := hat_ekle sebeke (Ad "B") (Ad "F") 60 1 25 in
  let sebeke := hat_ekle sebeke (Ad "B") (Ad "D") 90 2 40 in
  let sebeke := hat_ekle sebeke (Ad "F") (Ad "C") 30 1 15 in
  let sebeke := hat_ekle sebeke (Ad "F") (Ad "D") 50 3 20 in
  let sebeke := hat_ekle sebeke (Ad "F") (Ad "E") 80 2 30 in
  sebeke.

(** ** Notions used by the statements *)

(** The invariant of the dictionaries of a [DiGraph]: keys are unique, the
    node and adjacency dictionaries have the same keys in the same order, and
    every successor is a node. *)
Definition nx_iyi {N E : Type} (g : nx.DiGraph N E) : Prop :=
  NoDup (Sozluk.anahtarlar (nx._node g)) ∧
  Sozluk.anahtarlar (nx._adj g) = Sozluk.anahtarlar (nx._node g) ∧
  Forall (fun un =>
            NoDup (Sozluk.anahtarlar un.2) ∧
            Forall (fun v => v ∈ Sozluk.anahtarlar (nx._node g)) (Sozluk.anahtarlar un.2))
         (nx._adj g).

(** What [dugum_ekle] guarantees about the attributes it stores. *)
Definition dugum_tutarli (d : dugum_verisi) : Prop :=
  net d = (uretim d - talep d)%Q ∧
  match tip d with
  | TipKaynak => (0 < net d)%Q
  | TipHedef => (net d < 0)%Q
  | TipTransfer => (net d == 0)%Q
  end.

Definition dugumler_tutarli (g : nx.DiGraph dugum_verisi hat_verisi) : Prop :=
  Forall (fun na => match na.2 with Some d => dugum_tutarli d | None => True end)
         (nx.nodes g).

(** The invariant of an object built by the methods of the class. *)
Definition iyi_sebeke (self : ElektrikSebekesi) : Prop :=
  nx_iyi (G self) ∧ dugumler_tutarli (G self).

(** Every flow field holds a number. *)
Definition sayisal (g : nx.DiGraph dugum_verisi hat_verisi) : Prop :=
  Forall (fun e => match akis e.2 with Sayi _ => True | IcSozluk _ => False end)
         (nx.edges g).

(** [sum(l)] *)
Definition Qtopla (l : list Q) : Q := foldl Qplus 0%Q l.

(** Total supply and total demand, over the nodes that carry attributes
    (lines 270-271 compute them this way). *)
Definition toplam_uretim (self : ElektrikSebekesi) : Q :=
  Qtopla (omap (fun na => uretim <$> na.2) (nx.nodes (G self))).

Definition toplam_talep (self : ElektrikSebekesi) : Q :=
  Qtopla (omap (fun na => talep <$> na.2) (nx.nodes (G self))).

(** The sum of the [demand] attributes of the optimisation graph. *)
Definition toplam_demand (mcf : mcf_grafik) : Q :=
  Qtopla (omap (fun na => demand <$> na.2) (nx.nodes mcf)).

(** [flowDict[u][v]], with [0] for an edge the table does not list. *)
Definition tablo_akisi (fd : akis_tablosu) (u v : dugum_id) : Q :=
  match Sozluk.bul fd u with
  | Some d => match Sozluk.bul d v with Some q => q | None => 0%Q end
  | None => 0%Q
  end.






(** The edges without their flow fields. *)
Definition hat_iskeleti (g : nx.DiGraph dugum_verisi hat_verisi)
  : list (dugum_id * list (dugum_id * (Q * Q))) :=
  map (fun un => (un.1, map (fun vh => (vh.1, (kapasite vh.2, maliyet vh.2))) un.2))
      (nx._adj g).

(** The entry [darbogazlari_bul] makes for an edge, when it makes one. *)
Definition darbogaz_adayi (esik_yuzdesi : Q) (e : dugum_id * dugum_id * hat_verisi)
  : option Darbogaz.t :=
  match akis e.2 with
  | Sayi a =>
      if Qgt_bool (kapasite e.2) 0 && Qle_bool esik_yuzdesi (a / kapasite e.2 * 100)
      then Some {| Darbogaz.hat := (e.1.1, e.1.2);
                   Darbogaz.kapasite := kapasite e.2;
                   Darbogaz.akis := a;
                   Darbogaz.kullanim_yuzdesi := (a / kapasite e.2 * 100)%Q |}
      else None
  | IcSozluk _ => None
  end.

(** Descending order of utilisation. *)
Definition azalan (l : list Darbogaz.t) : Prop :=
  Sorted (fun x y => (Darbogaz.kullanim_yuzdesi y <= Darbogaz.kullanim_yuzdesi x)%Q) l.


(** ** Networks and solver answers used at concrete inputs *)

(** A producer of 10 MW, a consumer of 10 MW and one line between them. *)
Definition iki_dugum : ElektrikSebekesi :=
  let sebeke := yeni "iki" in
  let sebeke := dugum_ekle sebeke (Ad "A") 0 10 in
  let sebeke := dugum_ekle sebeke (Ad "B") 10 0 in
  hat_ekle sebeke (Ad "A") (Ad "B") 20 1 0.

(** The answer of [nx.network_simplex] on the optimisation graph of
    [iki_dugum]: the only flow that meets the demands sends 10 over the line,
    at cost 10. *)
Definition iki_dugum_tablosu : akis_tablosu :=
  [(Ad "A", [(Ad "B", 10%Q)]); (Ad "B", [])].

Definition iki_dugum_cozucu (mcf_graph : mcf_grafik) : sonuc (Q * akis_tablosu) :=
  Dondu (10%Q, iki_dugum_tablosu).

(** Supply 10 against demand 5. *)
Definition dengesiz : ElektrikSebekesi :=
  let sebeke := yeni "dengesiz" in
  let sebeke := dugum_ekle sebeke (Ad "A") 0 10 in
  let sebeke := dugum_ekle sebeke (Ad "B") 5 0 in
  hat_ekle sebeke (Ad "A") (Ad "B") 20 1 0.

(** A solver that does what networkx does first: it raises
    [NetworkXUnfeasible] when the demands do not sum to zero.  On other
    graphs it answers with the given cost and table. *)
Definition toplam_denetleyen (cevap : Q * akis_tablosu) (mcf_graph : mcf_grafik)
  : sonuc (Q * akis_tablosu) :=
  if Qeq_bool (toplam_demand mcf_graph) 0 then Dondu cevap
  else Firlatti NetworkXUnfeasible.

(** Three lines with (capacity, flow) = (100, 95), (50, 30), (80, 80). *)
Definition uc_hat : ElektrikSebekesi :=
  let sebeke := yeni "uc hat" in
  let sebeke := dugum_ekle sebeke (Ad "A") 0 0 in
  let sebeke := dugum_ekle sebeke (Ad "B") 0 0 in
  let sebeke := dugum_ekle sebeke (Ad "C") 0 0 in
  let sebeke := dugum_ekle sebeke (Ad "D") 0 0 in
  let sebeke := hat_ekle sebeke (Ad "A") (Ad "B") 100 1 95 in
  let sebeke := hat_ekle sebeke (Ad "B") (Ad "C") 50 1 30 in
  hat_ekle sebeke (Ad "C") (Ad "D") 80 1 80.




(** A line whose manual flow exceeds its capacity. *)
Definition asiri_yuklu : ElektrikSebekesi :=
  (akis_ata iki_dugum (Ad "A") (Ad "B") 30).1.

(** ** Closed forms of the loops *)

(** One round of the write-back loop, on the graph. *)
Definition aktarim_adimi (flow_dict : akis_tablosu)
    (g : nx.DiGraph dugum_verisi hat_verisi) (e : dugum_id * dugum_id * hat_verisi)
  : nx.DiGraph dugum_verisi hat_verisi :=
  nx.hat_degistir g e.1.1 e.1.2 (akis_yaz (aktarilan_akis flow_dict e.1.1 e.1.2)).

(** The write-back applied to the lines whose identity is in [ks]. *)
Definition kismi_aktar (flow_dict : akis_tablosu) (ks : list (dugum_id * dugum_id))
    (g : nx.DiGraph dugum_verisi hat_verisi) : nx.DiGraph dugum_verisi hat_verisi :=
  {| nx._node := nx._node g;
     nx._adj :=
       map (fun un =>
              (un.1,
               map (fun vh =>
                      (vh.1,
                       if decide ((un.1, vh.1) ∈ ks)
                       then akis_yaz (aktarilan_akis flow_dict un.1 vh.1) vh.2
                       else vh.2))
                   un.2))
           (nx._adj g) |}.

(** The write-back applied to every line. *)
Definition hepsini_aktar (flow_dict : akis_tablosu)
    (g : nx.DiGraph dugum_verisi hat_verisi) : nx.DiGraph dugum_verisi hat_verisi :=
  {| nx._node := nx._node g;
     nx._adj :=
       map (fun un =>
              (un.1,
               map (fun vh =>
                      (vh.1, akis_yaz (aktarilan_akis flow_dict un.1 vh.1) vh.2))
                   un.2))
           (nx._adj g) |}.

(** The adjacency dictionary after the write-back, from the edges without
    their flow fields. *)
Definition iskeletten (flow_dict : akis_tablosu)
    (sk : list (dugum_id * list (dugum_id * (Q * Q))))
  : list (dugum_id * list (dugum_id * hat_verisi)) :=
  map (fun un =>
         (un.1,
          map (fun vp =>
                 (vp.1,
                  {| kapasite := vp.2.1; maliyet := vp.2.2;
                     akis := aktarilan_akis flow_dict un.1 vp.1 |}))
              un.2))
      sk.

(** The edges of a graph given without flow fields. *)
Definition iskelet_hatlari (sk : list (dugum_id * list (dugum_id * (Q * Q))))
  : list (dugum_id * dugum_id * (Q * Q)) :=
  flat_map (fun un => map (fun vp => (un.1, vp.1, vp.2)) un.2) sk.

(** One round of the second loop of the solve method, from an edge without
    its flow field. *)
Definition mcf_hat_ekle_cekirdek (mcf_graph : mcf_grafik)
    (p : dugum_id * dugum_id * (Q * Q)) : mcf_grafik :=
  nx.add_edge mcf_graph p.1.1 p.1.2 {| capacity := p.2.1; weight := p.2.2 |}.

(** The [demand] the first loop of the solve method gives to a node. *)
Definition mcf_talebi (attr : dugum_verisi) : mcf_dugum :=
  match tip attr with
  | TipKaynak => {| demand := - net attr |}
  | TipHedef => {| demand := Qabs (net attr) |}
  | TipTransfer => {| demand := 0 |}
  end.

(** The attributes the second loop gives to an edge. *)
Definition mcf_hatti (h : hat_verisi) : mcf_hat :=
  {| capacity := kapasite h; weight := maliyet h |}.

(** The optimisation graph of a well-formed network: the same nodes and
    edges in the same order, with the attributes translated. *)
Definition mcf_aynasi (g : nx.DiGraph dugum_verisi hat_verisi) : mcf_grafik :=
  {| nx._node := map (fun na => (na.1, mcf_talebi <$> na.2)) (nx._node g);
     nx._adj := map (fun un => (un.1, map (fun vh => (vh.1, mcf_hatti vh.2)) un.2))
                    (nx._adj g) |}.

(** One round of the second loop, on the adjacency dictionary. *)
Definition komsuluk_adimi (adj : list (dugum_id * list (dugum_id * mcf_hat)))
    (e : dugum_id * dugum_id * hat_verisi) : list (dugum_id * list (dugum_id * mcf_hat)) :=
  Sozluk.degistir adj e.1.1 (fun nbrs => Sozluk.koy nbrs e.1.2 (mcf_hatti e.2)).

(** The object a successful solve leaves behind and the pair it returns,
    for the answer [cozum] of the solver. *)
Definition cozum_sonrasi (self : ElektrikSebekesi) (cozum : Q * akis_tablosu)
  : ElektrikSebekesi * (akis_sozlugu * Q) :=
  let g := foldl (aktarim_adimi cozum.2) (G self) (nx.edges (G self)) in
  let akislar := akislari_topla (nx.edges g) in
  ({| ad := ad self;
      G := g;
      sonuclar := <["toplam_maliyet" := SMaliyet cozum.1]>
                    (<["akislar" := SAkislar akislar]> (sonuclar self)) |},
   (akislar, cozum.1)).

(** ** The drawing attributes computed by [gorselleştir]

    The calls into matplotlib and the drawing functions of networkx are
    library code; what is embedded are the two loops that compute their
    arguments. *)

(** The colour names the method uses. *)
Inductive renk : Type := Green | Red | Blue | Orange | Gray.

(** Lines 157-163: one round.  [self.G.nodes[n]] is the attribute dictionary
    of the node being visited; ['tip'] is missing on a node without
    attributes. *)
Definition dugum_rengi (dugum_renkleri : list renk) (na : dugum_id * option dugum_verisi)
  : sonuc (list renk) :=
  match na.2 with
  | None => Firlatti (KeyError "tip")
  | Some attr =>
      match tip attr with
      | TipKaynak => Dondu (dugum_renkleri ++ [Green])
      | TipHedef => Dondu (dugum_renkleri ++ [Red])
      | TipTransfer => Dondu (dugum_renkleri ++ [Blue])
      end
  end.

Fixpoint dugum_renkleri_tara (dugum_renkleri : list renk)
    (ns : list (dugum_id * option dugum_verisi)) : sonuc (list renk) :=
  match ns with
  | [] => Dondu dugum_renkleri
  | na :: r => sonuc_bagla (dugum_rengi dugum_renkleri na) (fun c => dugum_renkleri_tara c r)
  end.

(** Lines 156-163: the list [dugum_renkleri]. *)
Definition dugum_renkleri (self : ElektrikSebekesi) : sonuc (list renk) :=
  dugum_renkleri_tara [] (nx.nodes (G self)).

(** Lines 187-207: one round on the lists [kalinliklar] and [kenar_renkleri].
    The width is computed first, so a flow field that is not a number raises
    before anything is appended. *)
Definition hat_cizimi (cizim : list Q * list renk) (e : dugum_id * dugum_id * hat_verisi)
  : sonuc (list Q * list renk) :=
  if Qgt_bool (kapasite e.2) 0 then
    match akis e.2 with
    | Sayi a =>
        let kalinlik := (a / kapasite e.2 * 2 + 0.5)%Q in
        let doluluk_orani := (a / kapasite e.2)%Q in
        let kenar_rengi :=
          if Qle_bool 0.9 doluluk_orani then Red
          else if Qle_bool 0.7 doluluk_orani then Orange
          else Green in
        Dondu (cizim.1 ++ [kalinlik], cizim.2 ++ [kenar_rengi])
    | IcSozluk _ => Firlatti TypeError
    end
  else Dondu (cizim.1 ++ [0.5%Q], cizim.2 ++ [Gray]).

Fixpoint hat_cizimleri_tara (cizim : list Q * list renk)
    (es : list (dugum_id * dugum_id * hat_verisi)) : sonuc (list Q * list renk) :=
  match es with
  | [] => Dondu cizim
  | e :: r => sonuc_bagla (hat_cizimi cizim e) (fun c => hat_cizimleri_tara c r)
  end.

(** Lines 184-207: the lists [kalinliklar] and [kenar_renkleri]. *)
Definition hat_cizimleri (self : ElektrikSebekesi) : sonuc (list Q * list renk) :=
  hat_cizimleri_tara ([], []) (nx.edges (G self)).

(** ** The report *)

(** The lines [rapor_olustur] prints, one constructor for each [print].  A
    number the source formats with [:.2f] or [:.1f] is carried as it is. *)
Inductive rapor_satiri : Type :=
  | RBaslik (ad : string)
  | ROzet
  | RDugumSayisi (n : nat)
  | RHatSayisi (n : nat)
  | RKaynakSayisi (n : nat)
  | RHedefSayisi (n : nat)
  | RTransferSayisi (n : nat)
  | RToplamUretim (q : Q)
  | RToplamTalep (q : Q)
  | RAkisSonuclari
  | RToplamMaliyet (q : Q)
  | RDarbogazAnalizi
  | RDarbogazSayisi (n : nat)
  | REnKritik
  | RDarbogaz (i : nat) (db : Darbogaz.t)
  | RKapanis.

(** Text printed so far, and how the computation went on. *)
Definition Yazici (A : Type) : Type := list rapor_satiri * sonuc A.

Definition yazdir (satir : rapor_satiri) : Yazici unit := ([satir], Dondu tt).

Definition sessiz {A : Type} (r : sonuc A) : Yazici A := ([], r).

Definition yazici_bagla {A B : Type} (m : Yazici A) (k : A -> Yazici B) : Yazici B :=
  match m with
  | (once, Dondu a) => (once ++ (k a).1, (k a).2)
  | (once, Firlatti e) => (once, Firlatti e)
  end.

Declare Scope yazici_scope.
Delimit Scope yazici_scope with yazici.
Notation "x <- m ;; k" := (yazici_bagla m (fun x => k))
  (at level 100, m at next level, right associativity) : yazici_scope.
Notation "m ;;; k" := (yazici_bagla m (fun _ => k))
  (at level 100, right associativity) : yazici_scope.

#[global] Instance dugum_tipi_eq_dec : EqDecision dugum_tipi.
Proof. solve_decision. Defined.

(** [len([n for n, attr in self.G.nodes(data=True) if attr['tip'] == t])] *)
Fixpoint tip_say (t : dugum_tipi) (ns : list (dugum_id * option dugum_verisi)) (say : nat)
  : sonuc nat :=
  match ns with
  | [] => Dondu say
  | na :: r =>
      match na.2 with
      | None => Firlatti (KeyError "tip")
      | Some attr =>
          tip_say t r (if decide (tip attr = t) then S say else say)
      end
  end.

(** [sum(attr[k] for _, attr in self.G.nodes(data=True))] *)
Fixpoint ozellik_topla (k : string) (alan : dugum_verisi -> Q)
    (ns : list (dugum_id * option dugum_verisi)) (toplam : Q) : sonuc Q :=
  match ns with
  | [] => Dondu toplam
  | na :: r =>
      match na.2 with
      | None => Firlatti (KeyError k)
      | Some attr => ozellik_topla k alan r (toplam + alan attr)%Q
      end
  end.

(** Lines 277-279: the cost of the last solve, when there is one. *)
Definition rapor_akis_sonuclari (self : ElektrikSebekesi) : Yazici unit :=
  match sonuclar self !! "toplam_maliyet" with
  | None => sessiz (Dondu tt)
  | Some (SMaliyet q) => (yazdir RAkisSonuclari ;;; yazdir (RToplamMaliyet q))%yazici
  | Some (SAkislar _) => (yazdir RAkisSonuclari ;;; sessiz (Firlatti TypeError))%yazici
  end.

(** Lines 282-290: the bottlenecks at the default threshold, the first five
    of them numbered from 1. *)
Definition rapor_darbogazlar (self : ElektrikSebekesi) : Yazici unit :=
  (darbogazlar <- sessiz (darbogazlari_bul self 90) ;;
   match darbogazlar with
   | [] => sessiz (Dondu tt)
   | _ :: _ =>
       (RDarbogazAnalizi
          :: RDarbogazSayisi (length darbogazlar)
          :: REnKritik
          :: imap (fun i db => RDarbogaz (S i) db) (take 5 darbogazlar),
        Dondu tt)
   end)%yazici.

Definition rapor_olustur (self : ElektrikSebekesi) : Yazici unit :=
  (yazdir (RBaslik (ad self)) ;;;
   yazdir ROzet ;;;
   yazdir (RDugumSayisi (length (nx.nodes (G self)))) ;;;
   yazdir (RHatSayisi (length (nx.edges (G self)))) ;;;
   kaynak_sayisi <- sessiz (tip_say TipKaynak (nx.nodes (G self)) 0) ;;
   hedef_sayisi <- sessiz (tip_say TipHedef (nx.nodes (G self)) 0) ;;
   transfer_sayisi <- sessiz (tip_say TipTransfer (nx.nodes (G self)) 0) ;;
   yazdir (RKaynakSayisi kaynak_sayisi) ;;;
   yazdir (RHedefSayisi hedef_sayisi) ;;;
   yazdir (RTransferSayisi transfer_sayisi) ;;;
   toplam_uretim <- sessiz (ozellik_topla "uretim" uretim (nx.nodes (G self)) 0) ;;
   toplam_talep <- sessiz (ozellik_topla "talep" talep (nx.nodes (G self)) 0) ;;
   yazdir (RToplamUretim toplam_uretim) ;;;
   yazdir (RToplamTalep toplam_talep) ;;;
   rapor_akis_sonuclari self ;;;
   rapor_darbogazlar self ;;;
   yazdir RKapanis)%yazici.

(** ** Sequences of method calls *)

Inductive cagri : Type :=
  | DugumEkle (dugum : dugum_id) (talep uretim : Q)
  | HatEkle (kaynak hedef : dugum_id) (kapasite maliyet akis : Q)
  | AkisAta (kaynak hedef : dugum_id) (akis_degeri : Q)
  | Hesapla.

(** The object after one call ([ns] is the solver). *)
Definition cagir (ns : mcf_grafik -> sonuc (Q * akis_tablosu))
    (self : ElektrikSebekesi) (c : cagri) : ElektrikSebekesi :=
  match c with
  | DugumEkle dugum talep uretim => dugum_ekle self dugum talep uretim
  | HatEkle kaynak hedef kapasite maliyet akis =>
      hat_ekle self kaynak hedef kapasite maliyet akis
  | AkisAta kaynak hedef akis_degeri => (akis_ata self kaynak hedef akis_degeri).1
  | Hesapla => (min_maliyet_akis_hesapla ns self).1.1
  end.

(** The identifiers a call names. *)
Definition cagri_dugumleri (c : cagri) : list dugum_id :=
  match c with
  | DugumEkle dugum _ _ => [dugum]
  | HatEkle kaynak hedef _ _ _ => [kaynak; hedef]
  | AkisAta _ _ _ => []
  | Hesapla => []
  end.

(** ** Further notions used by the statements *)

(** What [sonuclar] holds on an object built by the methods: nothing, or the
    two entries of the last successful solve. *)
Definition sonuclar_tutarli (self : ElektrikSebekesi) : Prop :=
  sonuclar self = ∅ ∨
  ∃ akislar toplam_maliyet,
    sonuclar self = <["toplam_maliyet" := SMaliyet toplam_maliyet]>
                      (<["akislar" := SAkislar akislar]> ∅).

(** [akislar[u][v]], when both keys are there. *)
Definition akislar_bul (akislar : akis_sozlugu) (u v : dugum_id) : option deger :=
  match Sozluk.bul akislar u with
  | Some d => Sozluk.bul d v
  | None => None
  end.

(** The entries of a bottleneck list that reach the threshold. *)
Definition esigi_gecenler (esik_yuzdesi : Q) (l : list Darbogaz.t) : list Darbogaz.t :=
  List.filter (fun d => Qle_bool esik_yuzdesi (Darbogaz.kullanim_yuzdesi d)) l.

(** The dictionary [akislar], from the adjacency dictionary. *)
Definition akislar_aynasi (adj : list (dugum_id * list (dugum_id * hat_verisi)))
  : akis_sozlugu :=
  map (fun un => (un.1, map (fun vh => (vh.1, akis vh.2)) un.2))
      (List.filter (fun un => match un.2 with [] => false | _ :: _ => true end) adj).

(** A line on which [akis / kapasite] is evaluated and raises: its capacity
    is positive and its flow field is not a number. *)
Definition bozuk_hat (e : dugum_id * dugum_id * hat_verisi) : bool :=
  Qgt_bool (kapasite e.2) 0 &&
  match akis e.2 with Sayi _ => false | IcSozluk _ => true end.

(** A network with a node whose identifier is the pair of the endpoints of a
    line, and the answer of the solver on it: its dictionary has one key for
    each node, the pair included. *)
Definition demetli : ElektrikSebekesi :=
  let sebeke := yeni "demetli" in
  let sebeke := dugum_ekle sebeke (Ad "A") 0 10 in
  let sebeke := dugum_ekle sebeke (Ad "B") 10 0 in
  let sebeke := dugum_ekle sebeke (Demet (Ad "A") (Ad "B")) 0 0 in
  hat_ekle sebeke (Ad "A") (Ad "B") 20 1 0.

Definition demetli_cozucu (mcf_graph : mcf_grafik) : sonuc (Q * akis_tablosu) :=
  Dondu (10%Q, [(Ad "A", [(Ad "B", 10%Q)]); (Ad "B", []); (Demet (Ad "A") (Ad "B"), [])]).

(** The width and the colour the edge loop of [gorselleştir] gives a line
    (for a line on which the loop does not raise). *)
Definition hat_kalinligi (e : dugum_id * dugum_id * hat_verisi) : Q :=
  if Qgt_bool (kapasite e.2) 0 then
    match akis e.2 with
    | Sayi a => (a / kapasite e.2 * 2 + 0.5)%Q
    | IcSozluk _ => 0.5%Q
    end
  else 0.5%Q.

Definition hat_rengi (e : dugum_id * dugum_id * hat_verisi) : renk :=
  if Qgt_bool (kapasite e.2) 0 then
    match akis e.2 with
    | Sayi a =>
        if Qle_bool 0.9 (a / kapasite e.2) then Red
        else if Qle_bool 0.7 (a / kapasite e.2) then Orange
        else Green
    | IcSozluk _ => Gray
    end
  else Gray.


(** The number of nodes of a role. *)
Definition tip_sayisi (t : dugum_tipi) (ns : list (dugum_id * option dugum_verisi)) : nat :=
  length (List.filter
            (fun na => match na.2 with
                       | Some attr => bool_decide (tip attr = t)
                       | None => false
                       end) ns).

(** The numbered bottleneck lines of a printed report. *)
Definition darbogaz_satirlari (cikti : list rapor_satiri) : list (nat * Darbogaz.t) :=
  omap (fun satir => match satir with RDarbogaz i db => Some (i, db) | _ => None end) cikti.

(** The nine summary lines of the report (lines 253-274), with the counts and
    the sums in closed form. *)
Definition rapor_ozeti (self : ElektrikSebekesi) : list rapor_satiri :=
  [ RBaslik (ad self);
    ROzet;
    RDugumSayisi (length (nx.nodes (G self)));
    RHatSayisi (length (nx.edges (G self)));
    RKaynakSayisi (tip_sayisi TipKaynak (nx.nodes (G self)));
    RHedefSayisi (tip_sayisi TipHedef (nx.nodes (G self)));
    RTransferSayisi (tip_sayisi TipTransfer (nx.nodes (G self)));
    RToplamUretim (toplam_uretim self);
    RToplamTalep (toplam_talep self) ].

(** A network with an endpoint that only [hat_ekle] created. *)
Definition eksik_uclu : ElektrikSebekesi :=
  let sebeke := yeni "eksik uclu" in
  let sebeke := dugum_ekle sebeke (Ad "A") 0 10 in
  hat_ekle sebeke (Ad "A") (Ad "B") 20 1 0.

(** * Properties *)

(** ** Numbers *)

Lemma Qgt_bool_iff (x y : Q) : Qgt_bool x y = true ↔ (y < x)%Q.
Proof.
  unfold Qgt_bool. rewrite negb_true_iff.
  destruct (Qle_bool x y) eqn:Hle.
  - apply Qle_bool_iff in Hle. split; [discriminate|].
    intros Hlt. exfalso. apply (Qlt_not_le _ _ Hlt Hle).
  - split; [intros _|done].
    apply Qnot_le_lt. intros Hle'. apply Qle_bool_iff in Hle'. congruence.
Qed.

Lemma Qgt_bool_false (x y : Q) : Qgt_bool x y = false ↔ (x <= y)%Q.
Proof.
  unfold Qgt_bool. rewrite negb_false_iff. apply Qle_bool_iff.
Qed.

(** ** Dictionaries *)

Section sozluk_ozellikleri.
Context {K V : Type} `{EqDecision K}.
Implicit Types (d : list (K * V)) (k : K) (v : V).

Lemma bul_None d k : Sozluk.bul d k = None ↔ k ∉ Sozluk.anahtarlar d.
Proof.
  induction d as [|[k' v'] d IH]; simpl.
  - split; [intros _; apply not_elem_of_nil|done].
  - rewrite not_elem_of_cons. destruct (decide (k = k')) as [->|Hne].
    + split; [done|]. intros [? _]. done.
    + rewrite IH. tauto.
Qed.

Lemma var_true d k : Sozluk.var d k = true ↔ k ∈ Sozluk.anahtarlar d.
Proof.
  unfold Sozluk.var. destruct (Sozluk.bul d k) eqn:Hb.
  - split; [intros _|done].
    destruct (decide (k ∈ Sozluk.anahtarlar d)) as [|Hn]; [done|].
    apply bul_None in Hn. congruence.
  - apply bul_None in Hb. split; [done|]. intros. done.
Qed.

Lemma var_false d k : Sozluk.var d k = false ↔ k ∉ Sozluk.anahtarlar d.
Proof.
  rewrite <- var_true. destruct (Sozluk.var d k); split; try done.
Qed.

Lemma bul_app d1 d2 k :
  Sozluk.bul (d1 ++ d2) k =
  match Sozluk.bul d1 k with Some v => Some v | None => Sozluk.bul d2 k end.
Proof.
  induction d1 as [|[k' v'] d1 IH]; simpl; [done|].
  destruct (decide (k = k')); done.
Qed.

Lemma bul_koy_eq d k v : Sozluk.bul (Sozluk.koy d k v) k = Some v.
Proof.
  induction d as [|[k' v'] d IH]; simpl.
  - by rewrite decide_True.
  - destruct (decide (k = k')) as [->|Hne]; simpl.
    + by rewrite decide_True.
    + by rewrite decide_False.
Qed.

Lemma bul_koy_ne d k k' v :
  k' ≠ k → Sozluk.bul (Sozluk.koy d k v) k' = Sozluk.bul d k'.
Proof.
  intros Hne. induction d as [|[k0 v0] d IH]; simpl.
  - by rewrite decide_False.
  - destruct (decide (k = k0)) as [->|Hne0]; simpl.
    + by rewrite !decide_False.
    + destruct (decide (k' = k0)); done.
Qed.

Lemma anahtarlar_koy d k v :
  Sozluk.anahtarlar (Sozluk.koy d k v) =
  if Sozluk.var d k then Sozluk.anahtarlar d else Sozluk.anahtarlar d ++ [k].
Proof.
  unfold Sozluk.var. induction d as [|[k' v'] d IH]; simpl; [done|].
  destruct (decide (k = k')) as [->|Hne]; simpl; [done|].
  rewrite IH. by destruct (Sozluk.bul d k).
Qed.

Lemma anahtarlar_degistir d k (f : V → V) :
  Sozluk.anahtarlar (Sozluk.degistir d k f) = Sozluk.anahtarlar d.
Proof.
  unfold Sozluk.anahtarlar, Sozluk.degistir. rewrite map_map.
  apply map_ext. intros [k' v']; simpl. by destruct (decide (k' = k)).
Qed.

Lemma bul_degistir d k (f : V → V) k' :
  Sozluk.bul (Sozluk.degistir d k f) k' =
  if decide (k' = k) then f <$> Sozluk.bul d k' else Sozluk.bul d k'.
Proof.
  induction d as [|[k0 v0] d IH]; simpl.
  - by destruct (decide (k' = k)).
  - destruct (decide (k0 = k)) as [->|Hne]; simpl.
    + destruct (decide (k' = k)) as [->|Hne']; [done|]. apply IH.
    + destruct (decide (k' = k0)) as [->|Hne'].
      * by rewrite decide_False.
      * apply IH.
Qed.

Lemma NoDup_anahtarlar_koy d k v :
  NoDup (Sozluk.anahtarlar d) → NoDup (Sozluk.anahtarlar (Sozluk.koy d k v)).
Proof.
  intros Hnd. rewrite anahtarlar_koy. destruct (Sozluk.var d k) eqn:Hv; [done|].
  apply var_false in Hv. apply NoDup_app. split_and!; [done| |apply NoDup_singleton].
  intros x Hx Hx'. apply list_elem_of_singleton in Hx'. by subst.
Qed.
End sozluk_ozellikleri.

Lemma var_es_anahtar {K V W : Type} `{EqDecision K}
    (d1 : list (K * V)) (d2 : list (K * W)) (k : K) :
  Sozluk.anahtarlar d1 = Sozluk.anahtarlar d2 → Sozluk.var d1 k = Sozluk.var d2 k.
Proof.
  intros Heq. destruct (Sozluk.var d2 k) eqn:Hv.
  - apply var_true. rewrite Heq. by apply var_true.
  - apply var_false. rewrite Heq. by apply var_false.
Qed.

Lemma Forall_koy {K V : Type} `{EqDecision K} (P : K * V → Prop)
    (d : list (K * V)) (k : K) (v : V) :
  (∀ k', P (k', v)) → Forall P d → Forall P (Sozluk.koy d k v).
Proof.
  intros Hk Hd. induction Hd as [|[k' v'] d Hx Hd IH]; simpl.
  - by constructor.
  - destruct (decide (k = k')); constructor; done.
Qed.

(** ** The graph operations keep the dictionaries well formed *)

Section grafik_ozellikleri.
Context {N E : Type}.
Implicit Types (g : nx.DiGraph N E) (n u v : dugum_id).

Lemma bos_iyi : nx_iyi (@nx.bos N E).
Proof. split_and!; simpl; [apply NoDup_nil_2|done|constructor]. Qed.

Lemma hazirla_var g n : Sozluk.var (nx._adj (nx.dugum_hazirla g n)) n = true.
Proof.
  unfold nx.dugum_hazirla. destruct (Sozluk.var (nx._adj g) n) eqn:Hv; [done|].
  simpl. apply var_true. unfold Sozluk.anahtarlar. rewrite map_app.
  apply elem_of_app. right. simpl. apply list_elem_of_singleton. done.
Qed.

Lemma hazirla_var_korur g n u :
  Sozluk.var (nx._adj g) u = true → Sozluk.var (nx._adj (nx.dugum_hazirla g n)) u = true.
Proof.
  unfold nx.dugum_hazirla. destruct (Sozluk.var (nx._adj g) n); [done|].
  simpl. rewrite !var_true. unfold Sozluk.anahtarlar. rewrite map_app.
  intros. apply elem_of_app. by left.
Qed.

Lemma hazirla_iyi g n : nx_iyi g → nx_iyi (nx.dugum_hazirla g n).
Proof.
  intros (Hnd & Hkeys & Hadj). unfold nx.dugum_hazirla.
  destruct (Sozluk.var (nx._adj g) n) eqn:Hv; [done|].
  apply var_false in Hv. rewrite Hkeys in Hv.
  split_and!; simpl; unfold Sozluk.anahtarlar in *; rewrite ?map_app; simpl.
  - apply NoDup_app. split_and!; [done| |apply NoDup_singleton].
    intros x Hx ->%list_elem_of_singleton. done.
  - by rewrite Hkeys.
  - apply Forall_app. split.
    + eapply Forall_impl; [exact Hadj|]. intros un [Hn Hin]; split; [done|].
      eapply Forall_impl; [exact Hin|]. intros x Hx; simpl in *.
      apply elem_of_app. by left.
    + constructor; [|constructor]. simpl. split; [apply NoDup_nil_2|constructor].
Qed.

Lemma iyi_var_dugum g n : nx_iyi g → Sozluk.var (nx._node g) n = Sozluk.var (nx._adj g) n.
Proof. intros (_ & Hkeys & _). by apply var_es_anahtar. Qed.

Lemma add_node_iyi g n (attr : N) : nx_iyi g → nx_iyi (nx.add_node g n attr).
Proof.
  intros Hg. unfold nx.add_node.
  pose proof (hazirla_iyi g n Hg) as Hh. pose proof (hazirla_var g n) as Hv.
  rewrite <- (iyi_var_dugum _ _ Hh) in Hv.
  destruct Hh as (Hnd & Hkeys & Hadj).
  assert (Sozluk.anahtarlar (Sozluk.koy (nx._node (nx.dugum_hazirla g n)) n (Some attr))
          = Sozluk.anahtarlar (nx._node (nx.dugum_hazirla g n))) as Hk.
  { by rewrite anahtarlar_koy, Hv. }
  split_and!; simpl; rewrite ?Hk; done.
Qed.

Lemma add_edge_iyi g u v (attr : E) : nx_iyi g → nx_iyi (nx.add_edge g u v attr).
Proof.
  intros Hg. unfold nx.add_edge.
  pose proof (hazirla_iyi _ v (hazirla_iyi g u Hg)) as Hh.
  pose proof (hazirla_var (nx.dugum_hazirla g u) v) as Hv.
  set (g2 := nx.dugum_hazirla (nx.dugum_hazirla g u) v) in *.
  rewrite <- (iyi_var_dugum _ _ Hh) in Hv. apply var_true in Hv.
  destruct Hh as (Hnd & Hkeys & Hadj).
  split_and!; simpl; [done|by rewrite anahtarlar_degistir|].
  unfold Sozluk.degistir. apply Forall_map.
  eapply Forall_impl; [exact Hadj|]. intros [u' nbrs] [Hn Hin]; simpl in *.
  destruct (decide (u' = u)) as [->|Hne]; simpl; [|done].
  split; [by apply NoDup_anahtarlar_koy|].
  rewrite anahtarlar_koy. destruct (Sozluk.var nbrs v); [done|].
  apply Forall_app. split; [done|]. by constructor.
Qed.

Lemma hat_degistir_iyi g u v (f : E → E) : nx_iyi g → nx_iyi (nx.hat_degistir g u v f).
Proof.
  intros (Hnd & Hkeys & Hadj).
  split_and!; simpl; [done|by rewrite anahtarlar_degistir|].
  unfold Sozluk.degistir at 1. apply Forall_map.
  eapply Forall_impl; [exact Hadj|]. intros [u' nbrs] [Hn Hin]; simpl in *.
  destruct (decide (u' = u)) as [->|Hne]; simpl; [|done].
  by rewrite anahtarlar_degistir.
Qed.

Lemma hat_bul_add_edge g u v (attr : E) :
  nx.hat_bul (nx.add_edge g u v attr) u v = Some attr.
Proof.
  unfold nx.hat_bul, nx.add_edge; simpl.
  rewrite bul_degistir, decide_True by done.
  pose proof (hazirla_var_korur _ v u (hazirla_var g u)) as Hv.
  unfold Sozluk.var in Hv.
  destruct (Sozluk.bul (nx._adj (nx.dugum_hazirla (nx.dugum_hazirla g u) v)) u)
    as [nbrs|]; [|done].
  simpl. apply bul_koy_eq.
Qed.

Lemma has_edge_hat_bul g u v :
  nx.has_edge g u v = match nx.hat_bul g u v with Some _ => true | None => false end.
Proof.
  unfold nx.has_edge, nx.hat_bul, Sozluk.var.
  by destruct (Sozluk.bul (nx._adj g) u).
Qed.

Lemma hazirla_dugum_bul g n u :
  nx_iyi g →
  Sozluk.bul (nx._node (nx.dugum_hazirla g n)) u =
  if nx.has_node g u then Sozluk.bul (nx._node g) u
  else if decide (u = n) then Some None else None.
Proof.
  intros Hg. unfold nx.dugum_hazirla, nx.has_node.
  rewrite <- (iyi_var_dugum g n Hg).
  destruct (Sozluk.var (nx._node g) n) eqn:Hn.
  - destruct (Sozluk.var (nx._node g) u) eqn:Hu; [done|].
    destruct (decide (u = n)) as [->|]; [congruence|].
    unfold Sozluk.var in Hu. by destruct (Sozluk.bul (nx._node g) u).
  - simpl. rewrite bul_app. unfold Sozluk.var.
    destruct (Sozluk.bul (nx._node g) u); [done|]. simpl.
    destruct (decide (u = n)); done.
Qed.
End grafik_ozellikleri.

(** ** The methods keep the invariant of the object *)

Lemma hazirla_tutarli (g : nx.DiGraph dugum_verisi hat_verisi) n :
  dugumler_tutarli g → dugumler_tutarli (nx.dugum_hazirla g n).
Proof.
  unfold dugumler_tutarli, nx.nodes, nx.dugum_hazirla. intros Hg.
  destruct (Sozluk.var (nx._adj g) n); [done|]. simpl.
  apply Forall_app. split; [done|]. by constructor.
Qed.

Lemma yeni_iyi ad : iyi_sebeke (yeni ad).
Proof. split; [apply bos_iyi|constructor]. Qed.

Lemma dugum_ekle_iyi self dugum talep uretim :
  iyi_sebeke self → iyi_sebeke (dugum_ekle self dugum talep uretim).
Proof.
  intros [Hg Ht]. split; simpl; [by apply add_node_iyi|].
  unfold dugumler_tutarli, nx.nodes, nx.add_node; simpl.
  apply Forall_koy; [|by apply hazirla_tutarli].
  intros ?. simpl. split; simpl; [done|].
  destruct (Qgt_bool (uretim - talep) 0) eqn:H1; simpl.
  - by apply Qgt_bool_iff.
  - destruct (Qgt_bool 0 (uretim - talep)) eqn:H2; simpl.
    + by apply Qgt_bool_iff.
    + apply Qgt_bool_false in H1, H2. by apply Qle_antisym.
Qed.

Lemma hat_ekle_iyi self kaynak hedef kapasite maliyet akis :
  iyi_sebeke self → iyi_sebeke (hat_ekle self kaynak hedef kapasite maliyet akis).
Proof.
  intros [Hg Ht]. split; simpl; [by apply add_edge_iyi|].
  unfold dugumler_tutarli, nx.nodes, nx.add_edge; simpl.
  by do 2 apply hazirla_tutarli.
Qed.

Lemma akis_ata_iyi self kaynak hedef akis_degeri :
  iyi_sebeke self → iyi_sebeke (akis_ata self kaynak hedef akis_degeri).1.
Proof.
  intros [Hg Ht]. unfold akis_ata.
  destruct (nx.has_edge (G self) kaynak hedef); simpl; [|done].
  split; simpl; [by apply hat_degistir_iyi|done].
Qed.

(** ** Adding a line *)

(** C4 (as the code has it): [hat_ekle] cannot fail.  It always stores the
    line with the attributes given; an endpoint that was not a node becomes
    one, with an empty attribute dictionary, and the attributes of the nodes
    that were there are left as they were. *)
Theorem hat_ekle_her_zaman_ekler self kaynak hedef kapasite maliyet akis :
  nx_iyi (G self) →
  let self' := hat_ekle self kaynak hedef kapasite maliyet akis in
  nx.hat_bul (G self') kaynak hedef
    = Some {| kapasite := kapasite; maliyet := maliyet; akis := Sayi akis |} ∧
  nx.has_edge (G self') kaynak hedef = true ∧
  nx.has_node (G self') kaynak = true ∧
  nx.has_node (G self') hedef = true ∧
  (∀ n, Sozluk.bul (nx._node (G self')) n =
        if nx.has_node (G self) n then Sozluk.bul (nx._node (G self)) n
        else if decide (n = kaynak ∨ n = hedef) then Some None else None) ∧
  nx_iyi (G self').
Proof.
  intros Hg self'.
  assert (nx.hat_bul (G self') kaynak hedef
          = Some {| kapasite := kapasite; maliyet := maliyet; akis := Sayi akis |}) as Hb.
  { apply hat_bul_add_edge. }
  assert (nx_iyi (G self')) as Hg' by (by apply add_edge_iyi).
  assert (∀ n, Sozluk.bul (nx._node (G self')) n =
        if nx.has_node (G self) n then Sozluk.bul (nx._node (G self)) n
        else if decide (n = kaynak ∨ n = hedef) then Some None else None) as Hn.
  { intros n. unfold self'; simpl.
    rewrite hazirla_dugum_bul by (by apply hazirla_iyi).
    unfold nx.has_node at 1. rewrite hazirla_dugum_bul by done.
    unfold Sozluk.var at 1. rewrite hazirla_dugum_bul by done.
    destruct (nx.has_node (G self) n) eqn:Hn.
    - unfold nx.has_node, Sozluk.var in Hn.
      by destruct (Sozluk.bul (nx._node (G self)) n).
    - destruct (decide (n = kaynak)) as [->|Hk].
      + by rewrite decide_True by (by left).
      + destruct (decide (n = hedef)) as [->|Hh].
        * by rewrite decide_True by (by right).
        * by rewrite decide_False by (intros [?|?]; done). }
  split_and!; try done.
  - by rewrite has_edge_hat_bul, Hb.
  - unfold nx.has_node, Sozluk.var. rewrite Hn.
    destruct (nx.has_node (G self) kaynak) eqn:Hk.
    + unfold nx.has_node, Sozluk.var in Hk.
      by destruct (Sozluk.bul (nx._node (G self)) kaynak).
    + by rewrite decide_True by (by left).
  - unfold nx.has_node, Sozluk.var. rewrite Hn.
    destruct (nx.has_node (G self) hedef) eqn:Hk.
    + unfold nx.has_node, Sozluk.var in Hk.
      by destruct (Sozluk.bul (nx._node (G self)) hedef).
    + by rewrite decide_True by (by right).
Qed.

Lemma hat_ekle_her_zaman_ekler_ornek :
  nx_iyi (G (yeni "t")) ∧
  nx.has_node (G (yeni "t")) (Ad "X") = false ∧
  nx.has_edge (G (hat_ekle (yeni "t") (Ad "X") (Ad "Y") 10 1 0)) (Ad "X") (Ad "Y") = true.
Proof.
  split; [apply bos_iyi|]. split; [reflexivity|].
  apply (hat_ekle_her_zaman_ekler (yeni "t") (Ad "X") (Ad "Y") 10 1 0). apply bos_iyi.
Defined.

(** C4 (as the claim has it) fails: on an empty network [hat_ekle] with two
    unknown endpoints returns a network that holds the line; the endpoints
    were created on the way, without attributes. *)
Lemma hat_ekle_bilinmeyen_dugum :
  let once := yeni "t" in
  let sonra := hat_ekle once (Ad "X") (Ad "Y") 10 1 0 in
  nx.has_node (G once) (Ad "X") = false ∧
  nx.has_node (G once) (Ad "Y") = false ∧
  nx.has_edge (G sonra) (Ad "X") (Ad "Y") = true ∧
  nx.nodes (G sonra) = [(Ad "X", None); (Ad "Y", None)].
Proof. by vm_compute. Qed.

(** ** Manual assignment of a flow *)

Lemma hat_bul_hat_degistir {N E : Type} (g : nx.DiGraph N E) u v (f : E → E) u' v' :
  nx.hat_bul (nx.hat_degistir g u v f) u' v' =
  if decide (u' = u ∧ v' = v) then f <$> nx.hat_bul g u' v' else nx.hat_bul g u' v'.
Proof.
  unfold nx.hat_bul, nx.hat_degistir; simpl. rewrite bul_degistir.
  destruct (decide (u' = u)) as [->|Hu].
  - destruct (Sozluk.bul (nx._adj g) u) as [nbrs|]; simpl.
    + rewrite bul_degistir. destruct (decide (v' = v)) as [->|Hv].
      * by rewrite decide_True.
      * by rewrite decide_False by (intros [_ ?]; done).
    + by destruct (decide (u = u ∧ v' = v)).
  - by rewrite decide_False by (intros [? _]; done).
Qed.

(** C5 (as the code has it): [akis_ata] cannot fail.  When the line exists
    its flow field becomes the given value, whatever the capacity, and
    nothing else changes; when it does not, the object is left as it was and
    a message is printed. *)
Theorem akis_ata_davranisi self kaynak hedef akis_degeri :
  match nx.hat_bul (G self) kaynak hedef with
  | Some h =>
      let self' := (akis_ata self kaynak hedef akis_degeri).1 in
      (akis_ata self kaynak hedef akis_degeri).2 = [] ∧
      nx.hat_bul (G self') kaynak hedef
        = Some {| kapasite := kapasite h; maliyet := maliyet h; akis := Sayi akis_degeri |} ∧
      (∀ u v, ¬ (u = kaynak ∧ v = hedef) →
              nx.hat_bul (G self') u v = nx.hat_bul (G self) u v) ∧
      nx.nodes (G self') = nx.nodes (G self) ∧
      ad self' = ad self ∧
      sonuclar self' = sonuclar self
  | None =>
      akis_ata self kaynak hedef akis_degeri = (self, [HatBulunamadi kaynak hedef])
  end.
Proof.
  unfold akis_ata. rewrite has_edge_hat_bul.
  destruct (nx.hat_bul (G self) kaynak hedef) as [h|] eqn:Hb; simpl; [|done].
  split_and!; try done.
  - rewrite hat_bul_hat_degistir, decide_True, Hb by done. done.
  - intros u v Hne. by rewrite hat_bul_hat_degistir, decide_False.
Qed.

(** C5 (as the claim has it) fails: on a network without the line the call
    returns normally, with the object unchanged and a message printed. *)
Lemma akis_ata_hat_yok :
  nx.has_edge (G (yeni "t")) (Ad "X") (Ad "Y") = false ∧
  akis_ata (yeni "t") (Ad "X") (Ad "Y") 5
    = (yeni "t", [HatBulunamadi (Ad "X") (Ad "Y")]).
Proof. by vm_compute. Qed.

(** The flow is not clamped: 30 is stored on a line of capacity 20. *)
Lemma akis_ata_kirpmaz :
  nx.hat_bul (G asiri_yuklu) (Ad "A") (Ad "B")
    = Some {| kapasite := 20; maliyet := 1; akis := Sayi 30 |}.
Proof. by vm_compute. Qed.

(** ** The body of the solve method *)

Lemma akislari_aktar_acilim flow_dict es self :
  akislari_aktar flow_dict es self
  = (G_yaz (foldl (aktarim_adimi flow_dict) (G self) es) self, Dondu tt).
Proof.
  revert self. induction es as [|e es IH]; intros self; simpl.
  - by destruct self.
  - unfold bagla, guncelle. rewrite IH. by destruct self.
Qed.

(** The body raises only while it builds the optimisation graph or inside the
    solver; past the solver it runs to the end. *)
Lemma govde_acilim ns self :
  min_maliyet_govde ns self =
  match mcf_grafik_kur (G self) with
  | Firlatti e => (self, Firlatti e)
  | Dondu mcf_graph =>
      match ns mcf_graph with
      | Firlatti e => (self, Firlatti e)
      | Dondu cozum =>
          ((cozum_sonrasi self cozum).1, Dondu (cozum_sonrasi self cozum).2)
      end
  end.
Proof.
  unfold min_maliyet_govde, bagla, oku, yukselt.
  destruct (mcf_grafik_kur (G self)) as [mcf|e]; [|done].
  destruct (ns mcf) as [cozum|e]; [|done].
  rewrite akislari_aktar_acilim. by destruct self.
Qed.

Lemma hesapla_acilim ns self :
  min_maliyet_akis_hesapla ns self =
  match mcf_grafik_kur (G self) with
  | Firlatti e => (self, [AkisHatasi e], ([], 0%Q))
  | Dondu mcf_graph =>
      match ns mcf_graph with
      | Firlatti e => (self, [AkisHatasi e], ([], 0%Q))
      | Dondu cozum => ((cozum_sonrasi self cozum).1, [], (cozum_sonrasi self cozum).2)
      end
  end.
Proof.
  unfold min_maliyet_akis_hesapla. rewrite govde_acilim.
  destruct (mcf_grafik_kur (G self)) as [mcf|e]; [|done].
  by destruct (ns mcf) as [cozum|e].
Qed.

(** C8: a solve that fails (the handler ran: an exception was printed) leaves
    the whole object, and with it every flow field, as it was, and returns
    the pair of an empty dictionary and 0. *)
Theorem basarisiz_cozum_dokunmaz ns self self' e r :
  min_maliyet_akis_hesapla ns self = (self', [AkisHatasi e], r) →
  self' = self ∧
  (∀ u v, nx.hat_bul (G self') u v = nx.hat_bul (G self) u v) ∧
  r = ([], 0%Q).
Proof.
  rewrite hesapla_acilim.
  destruct (mcf_grafik_kur (G self)) as [mcf|e1].
  - destruct (ns mcf) as [cozum|e2]; [discriminate|].
    intros [= <- _ <-]. done.
  - intros [= <- _ <-]. done.
Qed.

Lemma basarisiz_cozum_dokunmaz_ornek :
  let sonra := min_maliyet_akis_hesapla (toplam_denetleyen (0%Q, [])) dengesiz in
  sonra.1.2 = [AkisHatasi NetworkXUnfeasible] ∧
  sonra.1.1 = dengesiz ∧
  (∀ u v, nx.hat_bul (G sonra.1.1) u v = nx.hat_bul (G dengesiz) u v) ∧
  sonra.2 = ([], 0%Q).
Proof.
  cbv zeta. split; [by vm_compute|].
  apply (basarisiz_cozum_dokunmaz (toplam_denetleyen (0%Q, [])) dengesiz
           (min_maliyet_akis_hesapla (toplam_denetleyen (0%Q, [])) dengesiz).1.1
           NetworkXUnfeasible
           (min_maliyet_akis_hesapla (toplam_denetleyen (0%Q, [])) dengesiz).2).
  by vm_compute.
Defined.

(** ** The write-back loop overwrites every flow field *)

Lemma kismi_aktar_bos flow_dict g : kismi_aktar flow_dict [] g = g.
Proof.
  destruct g as [nd adj]. unfold kismi_aktar; simpl. f_equal.
  rewrite <- (map_id adj) at 2. apply map_ext. intros [u nbrs]; simpl. f_equal.
  rewrite <- (map_id nbrs) at 2. apply map_ext. intros [v h]; simpl. done.
Qed.

Lemma aktarim_adimi_kismi flow_dict ks g e :
  aktarim_adimi flow_dict (kismi_aktar flow_dict ks g) e
  = kismi_aktar flow_dict ((e.1.1, e.1.2) :: ks) g.
Proof.
  destruct e as [[u v] h0]. destruct g as [nd adj].
  unfold aktarim_adimi, kismi_aktar, nx.hat_degistir, Sozluk.degistir.
  cbn [fst snd nx._node nx._adj]. f_equal.
  rewrite map_map. apply map_ext. intros [u' nbrs]. cbn [fst snd].
  destruct (decide (u' = u)) as [->|Hu]; cbn [fst snd]; f_equal.
  - rewrite map_map. apply map_ext. intros [v' h]. cbn [fst snd].
    destruct (decide (v' = v)) as [->|Hv].
    + rewrite (decide_True (P := (u, v) ∈ (u, v) :: ks)) by (by left).
      by destruct (decide ((u, v) ∈ ks)).
    + destruct (decide ((u, v') ∈ ks)) as [Hin|Hin].
      * by rewrite (decide_True (P := (u, v') ∈ (u, v) :: ks)) by (by right).
      * rewrite (decide_False (P := (u, v') ∈ (u, v) :: ks)); [done|].
        intros [?|?]%elem_of_cons; simplify_eq.
  - apply map_ext. intros [v' h]. cbn [fst snd].
    destruct (decide ((u', v') ∈ ks)) as [Hin|Hin].
    + by rewrite (decide_True (P := (u', v') ∈ (u, v) :: ks)) by (by right).
    + rewrite (decide_False (P := (u', v') ∈ (u, v) :: ks)); [done|].
      intros [?|?]%elem_of_cons; simplify_eq.
Qed.

Lemma foldl_aktarim_kismi flow_dict es ks g :
  foldl (aktarim_adimi flow_dict) (kismi_aktar flow_dict ks g) es
  = kismi_aktar flow_dict (rev (map (fun e => (e.1.1, e.1.2)) es) ++ ks) g.
Proof.
  revert ks. induction es as [|e es IH]; intros ks; [done|].
  cbn [foldl map rev]. rewrite aktarim_adimi_kismi, IH. by rewrite <- app_assoc.
Qed.

Lemma hat_anahtari_edges {E : Type} (g : nx.DiGraph dugum_verisi E) u nbrs v h :
  (u, nbrs) ∈ nx._adj g → (v, h) ∈ nbrs → (u, v, h) ∈ nx.edges g.
Proof.
  intros Hu Hv. unfold nx.edges. apply list_elem_of_In, in_flat_map.
  exists (u, nbrs). split; [by apply list_elem_of_In|].
  simpl. apply in_map_iff. exists (v, h). split; [done|by apply list_elem_of_In].
Qed.

Lemma kismi_hepsi flow_dict ks g :
  (∀ u v h, (u, v, h) ∈ nx.edges g → (u, v) ∈ ks) →
  kismi_aktar flow_dict ks g = hepsini_aktar flow_dict g.
Proof.
  intros Hks. unfold kismi_aktar, hepsini_aktar. f_equal.
  apply map_ext_in. intros [u nbrs] Hu%list_elem_of_In. cbn [fst snd]. f_equal.
  apply map_ext_in. intros [v h] Hv%list_elem_of_In. cbn [fst snd].
  rewrite decide_True; [done|]. eapply Hks, hat_anahtari_edges; done.
Qed.

Lemma foldl_aktarim_hepsi flow_dict g :
  foldl (aktarim_adimi flow_dict) g (nx.edges g) = hepsini_aktar flow_dict g.
Proof.
  rewrite <- (kismi_aktar_bos flow_dict g) at 1.
  rewrite foldl_aktarim_kismi. apply kismi_hepsi.
  intros u v h Hin. apply elem_of_app. left.
  apply list_elem_of_In. rewrite <- in_rev. apply in_map_iff. exists (u, v, h).
  split; [done|by apply list_elem_of_In].
Qed.

Lemma hepsini_aktar_iskelet flow_dict g :
  nx._adj (hepsini_aktar flow_dict g) = iskeletten flow_dict (hat_iskeleti g).
Proof.
  unfold hepsini_aktar, iskeletten, hat_iskeleti; simpl. rewrite map_map.
  apply map_ext. intros [u nbrs]; simpl. f_equal. rewrite map_map.
  apply map_ext. intros [v h]; done.
Qed.

Lemma hat_degistir_iskeleti g u v x :
  hat_iskeleti (nx.hat_degistir g u v (akis_yaz x)) = hat_iskeleti g.
Proof.
  unfold hat_iskeleti, nx.hat_degistir, Sozluk.degistir; simpl. rewrite map_map.
  apply map_ext. intros [u' nbrs]; simpl.
  destruct (decide (u' = u)) as [->|Hu]; simpl; [|done]. f_equal.
  rewrite map_map. apply map_ext. intros [v' h]; simpl.
  by destruct (decide (v' = v)).
Qed.

Lemma edges_iskelet g :
  map (fun e => (e.1, (kapasite e.2, maliyet e.2))) (nx.edges g)
  = iskelet_hatlari (hat_iskeleti g).
Proof.
  unfold nx.edges, iskelet_hatlari, hat_iskeleti.
  induction (nx._adj g) as [|[u nbrs] adj IH]; simpl; [done|].
  rewrite map_app, IH. f_equal. rewrite !map_map. done.
Qed.

(** ** The solve method reads the network without its flow fields *)

Lemma foldl_mcf_hat_ekle_cekirdek mcf_graph es :
  foldl mcf_hat_ekle mcf_graph es
  = foldl mcf_hat_ekle_cekirdek mcf_graph
      (map (fun e => (e.1, (kapasite e.2, maliyet e.2))) es).
Proof.
  revert mcf_graph. induction es as [|e es IH]; intros m; simpl; [done|].
  by rewrite IH.
Qed.

Lemma mcf_grafik_kur_iskelet g :
  mcf_grafik_kur g =
  sonuc_bagla (mcf_dugumleri_ekle nx.bos (nx._node g))
    (fun mcf_graph =>
       Dondu (foldl mcf_hat_ekle_cekirdek mcf_graph (iskelet_hatlari (hat_iskeleti g)))).
Proof.
  unfold mcf_grafik_kur, nx.nodes.
  destruct (mcf_dugumleri_ekle nx.bos (nx._node g)) as [m|e]; simpl; [|done].
  by rewrite foldl_mcf_hat_ekle_cekirdek, edges_iskelet.
Qed.

Lemma hepsini_aktar_es flow_dict g1 g2 :
  nx._node g1 = nx._node g2 → hat_iskeleti g1 = hat_iskeleti g2 →
  hepsini_aktar flow_dict g1 = hepsini_aktar flow_dict g2.
Proof.
  intros Hn Hs.
  pose proof (hepsini_aktar_iskelet flow_dict g1) as H1.
  pose proof (hepsini_aktar_iskelet flow_dict g2) as H2.
  rewrite Hs in H1. rewrite <- H2 in H1.
  unfold hepsini_aktar in *; simpl in *. by rewrite Hn, H1.
Qed.

(** Two objects that differ only in flow fields get the same answer, and on
    success end in the same state. *)
Lemma cozum_iskelete_bagli ns self1 self2 :
  ad self1 = ad self2 → sonuclar self1 = sonuclar self2 →
  nx._node (G self1) = nx._node (G self2) →
  hat_iskeleti (G self1) = hat_iskeleti (G self2) →
  let r1 := min_maliyet_akis_hesapla ns self1 in
  let r2 := min_maliyet_akis_hesapla ns self2 in
  r1.2 = r2.2 ∧ r1.1.2 = r2.1.2 ∧ (r2.1.2 = [] → r1.1.1 = r2.1.1).
Proof.
  intros Had Hso Hn Hs. cbv zeta. rewrite !hesapla_acilim, !mcf_grafik_kur_iskelet.
  rewrite Hn, Hs.
  destruct (mcf_dugumleri_ekle nx.bos (nx._node (G self2))) as [m|e]; simpl.
  - destruct (ns _) as [cozum|e]; simpl.
    + rewrite !foldl_aktarim_hepsi.
      rewrite (hepsini_aktar_es cozum.2 (G self1) (G self2) Hn Hs).
      rewrite Had, Hso. done.
    + split_and!; [done|done|discriminate].
  - split_and!; [done|done|discriminate].
Qed.

(** C7: assigning a flow by hand before the solve changes neither what the
    solve returns (the flows and the total cost) nor what it prints, and when
    the solve succeeds the two runs end in the same object. *)
Theorem cozum_onceki_akistan_bagimsiz ns self kaynak hedef akis_degeri :
  let onceden_atanmis := (akis_ata self kaynak hedef akis_degeri).1 in
  let r1 := min_maliyet_akis_hesapla ns onceden_atanmis in
  let r2 := min_maliyet_akis_hesapla ns self in
  r1.2 = r2.2 ∧ r1.1.2 = r2.1.2 ∧ (r2.1.2 = [] → r1.1.1 = r2.1.1).
Proof.
  cbv zeta. unfold akis_ata.
  destruct (nx.has_edge (G self) kaynak hedef); cbn [fst]; [|done].
  apply cozum_iskelete_bagli; try done.
  cbn [G G_yaz]. apply hat_degistir_iskeleti.
Qed.

(** ** What the solve method changes *)

Lemma foldl_aktarim_node flow_dict es g :
  nx._node (foldl (aktarim_adimi flow_dict) g es) = nx._node g.
Proof.
  revert g. induction es as [|e es IH]; intros g; simpl; [done|]. by rewrite IH.
Qed.

Lemma foldl_aktarim_iskeleti flow_dict es g :
  hat_iskeleti (foldl (aktarim_adimi flow_dict) g es) = hat_iskeleti g.
Proof.
  revert g. induction es as [|e es IH]; intros g; simpl; [done|].
  rewrite IH. apply hat_degistir_iskeleti.
Qed.

(** C10: the call never changes the name, the nodes, or the capacity and
    cost of a line.  When the body runs to its end, [sonuclar] gets exactly
    the two entries ['akislar'] and ['toplam_maliyet'], holding the pair the
    call returns, and its other entries stay; when the body raises, the
    object, [sonuclar] included, is left as it was. *)
Theorem cozum_yalniz_akis_ve_sonuclari_degistirir ns self :
  let sonra := min_maliyet_akis_hesapla ns self in
  let self' := sonra.1.1 in
  ad self' = ad self ∧
  nx.nodes (G self') = nx.nodes (G self) ∧
  hat_iskeleti (G self') = hat_iskeleti (G self) ∧
  match (min_maliyet_govde ns self).2 with
  | Dondu (akislar, toplam_maliyet) =>
      sonra.2 = (akislar, toplam_maliyet) ∧
      sonuclar self' = <["toplam_maliyet" := SMaliyet toplam_maliyet]>
                         (<["akislar" := SAkislar akislar]> (sonuclar self)) ∧
      sonuclar self' !! "akislar" = Some (SAkislar akislar) ∧
      sonuclar self' !! "toplam_maliyet" = Some (SMaliyet toplam_maliyet) ∧
      (∀ k, k ≠ "akislar" → k ≠ "toplam_maliyet" →
            sonuclar self' !! k = sonuclar self !! k)
  | Firlatti e =>
      self' = self ∧ sonuclar self' = sonuclar self ∧ sonra.2 = ([], 0%Q)
  end.
Proof.
  cbv zeta. rewrite hesapla_acilim, govde_acilim.
  destruct (mcf_grafik_kur (G self)) as [mcf|e]; [|done].
  destruct (ns mcf) as [[c fd]|e]; [|done].
  cbn [fst snd cozum_sonrasi ad G sonuclar nx.nodes].
  split_and!; try done.
  - apply foldl_aktarim_node.
  - apply foldl_aktarim_iskeleti.
  - rewrite lookup_insert_ne by done. by rewrite lookup_insert_eq.
  - by rewrite lookup_insert_eq.
  - intros k H1 H2. by rewrite !lookup_insert_ne.
Qed.

(** ** Bottlenecks *)

Lemma darbogaz_adayi_Some esik e d :
  darbogaz_adayi esik e = Some d ↔
  ∃ a, akis e.2 = Sayi a ∧ (0 < kapasite e.2)%Q ∧
       (esik <= a / kapasite e.2 * 100)%Q ∧
       d = {| Darbogaz.hat := (e.1.1, e.1.2);
              Darbogaz.kapasite := kapasite e.2;
              Darbogaz.akis := a;
              Darbogaz.kullanim_yuzdesi := (a / kapasite e.2 * 100)%Q |}.
Proof.
  unfold darbogaz_adayi. destruct (akis e.2) as [a|t].
  - destruct (Qgt_bool (kapasite e.2) 0) eqn:Hk; simpl.
    + apply Qgt_bool_iff in Hk.
      destruct (Qle_bool esik (a / kapasite e.2 * 100)) eqn:He.
      * apply Qle_bool_iff in He. split.
        -- intros [= <-]. by exists a.
        -- intros (a' & [= <-] & _ & _ & ->). done.
      * split; [done|]. intros (a' & [= <-] & _ & He' & _).
        apply Qle_bool_iff in He'. congruence.
    + split; [done|]. intros (a' & _ & Hk' & _).
      apply Qgt_bool_iff in Hk'. congruence.
  - split; [done|]. intros (a' & [=] & _).
Qed.

Lemma darbogaz_ekle_sayisal esik darbogazlar e a :
  akis e.2 = Sayi a →
  darbogaz_ekle esik darbogazlar e
  = Dondu (darbogazlar ++ option_list (darbogaz_adayi esik e)).
Proof.
  intros Ha. unfold darbogaz_ekle, darbogaz_adayi. rewrite Ha.
  destruct (Qgt_bool (kapasite e.2) 0); simpl; [|by rewrite app_nil_r].
  destruct (Qle_bool esik (a / kapasite e.2 * 100)); simpl; [done|].
  by rewrite app_nil_r.
Qed.

(** On numeric flow fields the loop does not raise, and it collects the
    qualifying lines in the order the graph enumerates its edges. *)
Lemma darbogaz_tara_sayisal esik darbogazlar es :
  Forall (fun e => match akis e.2 with Sayi _ => True | IcSozluk _ => False end) es →
  darbogaz_tara esik darbogazlar es
  = Dondu (darbogazlar ++ omap (darbogaz_adayi esik) es).
Proof.
  intros Hes. revert darbogazlar.
  induction Hes as [|e es He Hes IH]; intros acc; simpl.
  - by rewrite app_nil_r.
  - destruct (akis e.2) as [a|] eqn:Ha; [|done].
    rewrite (darbogaz_ekle_sayisal _ _ _ a Ha). simpl. rewrite IH.
    rewrite <- app_assoc. f_equal. f_equal.
    by destruct (darbogaz_adayi esik e).
Qed.

Lemma yerlestir_perm x l : yerlestir x l ≡ₚ x :: l.
Proof.
  induction l as [|y r IH]; simpl; [done|].
  destruct (Qle_bool _ _); [done|].
  rewrite IH. apply Permutation_swap.
Qed.

Lemma sirala_perm l : sirala l ≡ₚ l.
Proof.
  induction l as [|x l IH]; simpl; [done|].
  rewrite yerlestir_perm. by rewrite IH.
Qed.

Lemma yerlestir_azalan x l : azalan l → azalan (yerlestir x l).
Proof.
  unfold azalan. induction l as [|y r IH]; simpl; intros Hs.
  - by repeat constructor.
  - destruct (Qle_bool (Darbogaz.kullanim_yuzdesi y) (Darbogaz.kullanim_yuzdesi x)) eqn:Hle.
    + apply Qle_bool_iff in Hle. constructor; [exact Hs|by constructor].
    + assert (Darbogaz.kullanim_yuzdesi x <= Darbogaz.kullanim_yuzdesi y)%Q as Hxy.
      { apply Qlt_le_weak, Qnot_le_lt. intros H. apply Qle_bool_iff in H. congruence. }
      apply Sorted_inv in Hs as [Hs Hhd]. constructor; [by apply IH|].
      destruct r as [|z r]; simpl.
      * by constructor.
      * apply HdRel_inv in Hhd.
        destruct (Qle_bool (Darbogaz.kullanim_yuzdesi z) (Darbogaz.kullanim_yuzdesi x));
          by constructor.
Qed.

Lemma sirala_azalan l : azalan (sirala l).
Proof.
  induction l as [|x l IH]; simpl; [constructor|]. by apply yerlestir_azalan.
Qed.



Lemma darbogazlari_bul_sayisal self esik :
  sayisal (G self) →
  darbogazlari_bul self esik
  = Dondu (sirala (omap (darbogaz_adayi esik) (nx.edges (G self)))).
Proof.
  intros Hs. unfold darbogazlari_bul. by rewrite darbogaz_tara_sayisal.
Qed.







(** ** The optimisation graph mirrors the network *)

Lemma koy_taze {K V : Type} `{EqDecision K} (d : list (K * V)) (k : K) (v : V) :
  k ∉ Sozluk.anahtarlar d → Sozluk.koy d k v = d ++ [(k, v)].
Proof.
  induction d as [|[k' v'] d IH]; simpl; [done|].
  rewrite not_elem_of_cons. intros [Hne Hnin].
  rewrite decide_False by done. by rewrite IH.
Qed.

Lemma koy_app_son {K V : Type} `{EqDecision K} (d : list (K * V)) (k : K) (v v' : V) :
  k ∉ Sozluk.anahtarlar d → Sozluk.koy (d ++ [(k, v')]) k v = d ++ [(k, v)].
Proof.
  induction d as [|[k0 v0] d IH]; simpl.
  - intros _. by rewrite decide_True.
  - rewrite not_elem_of_cons. intros [Hne Hnin].
    rewrite decide_False by done. by rewrite IH.
Qed.

Lemma degistir_yok {K V : Type} `{EqDecision K} (d : list (K * V)) (k : K) (f : V → V) :
  k ∉ Sozluk.anahtarlar d → Sozluk.degistir d k f = d.
Proof.
  unfold Sozluk.degistir. induction d as [|[k' v'] d IH]; simpl; [done|].
  rewrite not_elem_of_cons. intros [Hne Hnin].
  rewrite decide_False by done. by rewrite IH.
Qed.

Lemma degistir_app {K V : Type} `{EqDecision K} (d1 d2 : list (K * V)) (k : K) (f : V → V) :
  Sozluk.degistir (d1 ++ d2) k f = Sozluk.degistir d1 k f ++ Sozluk.degistir d2 k f.
Proof. unfold Sozluk.degistir. apply map_app. Qed.

Lemma anahtarlar_app {K V : Type} (d1 d2 : list (K * V)) :
  Sozluk.anahtarlar (d1 ++ d2) = Sozluk.anahtarlar d1 ++ Sozluk.anahtarlar d2.
Proof. unfold Sozluk.anahtarlar. apply map_app. Qed.

Lemma hazirla_var_ayni {N E : Type} (g : nx.DiGraph N E) n :
  n ∈ Sozluk.anahtarlar (nx._adj g) → nx.dugum_hazirla g n = g.
Proof. intros Hin%var_true. unfold nx.dugum_hazirla. by rewrite Hin. Qed.

(** The first loop fails on a node without attributes. *)
Lemma mcf_dugumleri_ekle_ozelliksiz mcf_graph ns :
  Exists (fun na => na.2 = None) ns →
  mcf_dugumleri_ekle mcf_graph ns = Firlatti (KeyError "tip").
Proof.
  intros Hex. revert mcf_graph.
  induction Hex as [[n a] ns Hn|[n a] ns Hex IH]; intros m; simpl in *.
  - unfold mcf_dugum_ekle; simpl. by rewrite Hn.
  - unfold mcf_dugum_ekle; simpl. destruct a as [attr|]; [|done].
    destruct (tip attr); simpl; apply IH.
Qed.

Lemma mcf_dugum_ekle_Some mcf_graph n attr :
  mcf_dugum_ekle mcf_graph (n, Some attr)
  = Dondu (nx.add_node mcf_graph n (mcf_talebi attr)).
Proof. unfold mcf_dugum_ekle, mcf_talebi; simpl. by destruct (tip attr). Qed.

(** The first loop, started on a graph that has none of the nodes yet. *)
Lemma mcf_dugumleri_ekle_acilim (mcf_graph : mcf_grafik) ns :
  Sozluk.anahtarlar (nx._adj mcf_graph) = Sozluk.anahtarlar (nx._node mcf_graph) →
  NoDup (Sozluk.anahtarlar (nx._adj mcf_graph) ++ Sozluk.anahtarlar ns) →
  Forall (fun na => is_Some na.2) ns →
  mcf_dugumleri_ekle mcf_graph ns
  = Dondu {| nx._node := nx._node mcf_graph
                         ++ map (fun na => (na.1, mcf_talebi <$> na.2)) ns;
             nx._adj := nx._adj mcf_graph ++ map (fun na => (na.1, [])) ns |}.
Proof.
  intros Hkeys Hnd Hall. revert mcf_graph Hkeys Hnd.
  induction Hall as [|[n a] ns [attr Ha] Hall IH]; intros m Hkeys Hnd; simpl in *.
  - rewrite !app_nil_r. by destruct m.
  - subst a. rewrite mcf_dugum_ekle_Some. simpl.
    assert (n ∉ Sozluk.anahtarlar (nx._adj m)) as Hn.
    { apply NoDup_app in Hnd as (_ & Hdis & _). intros Hin.
      apply (Hdis n Hin). by left. }
    unfold nx.add_node, nx.dugum_hazirla.
    rewrite (proj2 (var_false _ _) Hn). simpl.
    rewrite koy_app_son by (by rewrite <- Hkeys).
    rewrite IH; simpl.
    + by rewrite <- !app_assoc.
    + by rewrite !anahtarlar_app, Hkeys.
    + rewrite anahtarlar_app, <- app_assoc. done.
Qed.

Lemma add_edge_var_ayni {N E : Type} (g : nx.DiGraph N E) u v (attr : E) :
  u ∈ Sozluk.anahtarlar (nx._adj g) → v ∈ Sozluk.anahtarlar (nx._adj g) →
  nx.add_edge g u v attr
  = {| nx._node := nx._node g;
       nx._adj := Sozluk.degistir (nx._adj g) u (fun nbrs => Sozluk.koy nbrs v attr) |}.
Proof.
  intros Hu Hv. unfold nx.add_edge.
  rewrite (hazirla_var_ayni g u Hu). by rewrite (hazirla_var_ayni g v Hv).
Qed.

Lemma anahtarlar_komsuluk_adimi adj e :
  Sozluk.anahtarlar (komsuluk_adimi adj e) = Sozluk.anahtarlar adj.
Proof. apply anahtarlar_degistir. Qed.

(** When every endpoint is a node already, the second loop only touches the
    adjacency dictionary. *)
Lemma foldl_mcf_hat_ekle_komsuluk (mcf_graph : mcf_grafik) es :
  Forall (fun e => e.1.1 ∈ Sozluk.anahtarlar (nx._adj mcf_graph) ∧
                   e.1.2 ∈ Sozluk.anahtarlar (nx._adj mcf_graph)) es →
  foldl mcf_hat_ekle mcf_graph es
  = {| nx._node := nx._node mcf_graph;
       nx._adj := foldl komsuluk_adimi (nx._adj mcf_graph) es |}.
Proof.
  intros Hes. revert mcf_graph Hes.
  induction es as [|e es IH]; intros m Hes; simpl.
  - by destruct m.
  - apply Forall_cons in Hes as [[Hu Hv] Hes].
    unfold mcf_hat_ekle at 2. rewrite add_edge_var_ayni by done.
    rewrite IH; simpl; [done|].
    eapply Forall_impl; [exact Hes|]. intros e'. simpl.
    by rewrite !anahtarlar_degistir.
Qed.

Lemma foldl_koy_taze (acc : list (dugum_id * mcf_hat)) (hs : list (dugum_id * hat_verisi)) :
  NoDup (Sozluk.anahtarlar acc ++ Sozluk.anahtarlar hs) →
  foldl (fun d vh => Sozluk.koy d vh.1 (mcf_hatti vh.2)) acc hs
  = acc ++ map (fun vh => (vh.1, mcf_hatti vh.2)) hs.
Proof.
  revert acc. induction hs as [|[v h] hs IH]; intros acc Hnd; simpl.
  - by rewrite app_nil_r.
  - assert (v ∉ Sozluk.anahtarlar acc) as Hv.
    { apply NoDup_app in Hnd as (_ & Hdis & _). intros Hin.
      apply (Hdis v Hin). by left. }
    rewrite koy_taze by done. rewrite IH.
    + by rewrite <- app_assoc.
    + rewrite anahtarlar_app, <- app_assoc. done.
Qed.

(** The rounds of the second loop for the successors of one node. *)
Lemma foldl_komsuluk_grup pre u acc post (hs : list (dugum_id * hat_verisi)) :
  u ∉ Sozluk.anahtarlar pre → u ∉ Sozluk.anahtarlar post →
  foldl komsuluk_adimi (pre ++ (u, acc) :: post) (map (fun vh => (u, vh.1, vh.2)) hs)
  = pre ++ (u, foldl (fun d vh => Sozluk.koy d vh.1 (mcf_hatti vh.2)) acc hs) :: post.
Proof.
  intros Hpre Hpost. revert acc.
  induction hs as [|[v h] hs IH]; intros acc; simpl; [done|].
  unfold komsuluk_adimi at 2; simpl.
  rewrite degistir_app, (degistir_yok pre) by done.
  unfold Sozluk.degistir at 1; simpl. rewrite decide_True by done.
  fold (Sozluk.degistir post u (fun nbrs => Sozluk.koy nbrs v (mcf_hatti h))).
  rewrite (degistir_yok post) by done. apply IH.
Qed.

(** The second loop over the whole adjacency dictionary. *)
Lemma foldl_komsuluk_hepsi (bitmis : list (dugum_id * list (dugum_id * mcf_hat)))
    (kalan : list (dugum_id * list (dugum_id * hat_verisi))) :
  NoDup (Sozluk.anahtarlar bitmis ++ Sozluk.anahtarlar kalan) →
  Forall (fun un => NoDup (Sozluk.anahtarlar un.2)) kalan →
  foldl komsuluk_adimi (bitmis ++ map (fun un => (un.1, [])) kalan)
        (flat_map (fun un => map (fun ve => (un.1, ve.1, ve.2)) un.2) kalan)
  = bitmis ++ map (fun un => (un.1, map (fun vh => (vh.1, mcf_hatti vh.2)) un.2)) kalan.
Proof.
  revert bitmis. induction kalan as [|[u hs] kalan IH]; intros bitmis Hnd Hin; simpl.
  - done.
  - apply Forall_cons in Hin as [Hhs Hin]. simpl in Hhs.
    rewrite foldl_app.
    assert ((u ∉ Sozluk.anahtarlar bitmis) ∧ (u ∉ Sozluk.anahtarlar kalan)) as [Hu1 Hu2].
    { apply NoDup_app in Hnd as (_ & Hdis & Hk). simpl in Hk.
      apply NoDup_cons in Hk as [? _]. split; [|done].
      intros Hb. apply (Hdis u Hb). by left. }
    rewrite foldl_komsuluk_grup; [|done|].
    + rewrite foldl_koy_taze by (by simpl). simpl.
      rewrite (cons_middle _ bitmis), app_assoc. rewrite IH; [| |done].
      * by rewrite <- app_assoc.
      * rewrite anahtarlar_app, <- app_assoc. done.
    + unfold Sozluk.anahtarlar. rewrite map_map. simpl. done.
Qed.

Lemma edges_uclari {N E : Type} (g : nx.DiGraph N E) :
  nx_iyi g →
  Forall (fun e => e.1.1 ∈ Sozluk.anahtarlar (nx._adj g) ∧
                   e.1.2 ∈ Sozluk.anahtarlar (nx._adj g)) (nx.edges g).
Proof.
  intros (_ & Hkeys & Hadj). apply Forall_forall. intros [[u v] h] Hin.
  apply list_elem_of_In, in_flat_map in Hin as ([u' nbrs] & Hu & Hv).
  apply in_map_iff in Hv as ([v' h'] & [= -> -> ->] & Hv). simpl in *.
  apply list_elem_of_In in Hu, Hv. split.
  - apply list_elem_of_In, in_map_iff. exists (u, nbrs).
    split; [done|by apply list_elem_of_In].
  - rewrite Forall_forall in Hadj. destruct (Hadj _ Hu) as [_ Htargets].
    rewrite Hkeys. rewrite Forall_forall in Htargets. apply Htargets.
    apply list_elem_of_In, in_map_iff. exists (v, h).
    split; [done|by apply list_elem_of_In].
Qed.

(** On a well-formed network whose nodes all carry attributes, lines 76-90
    build the mirror of the network. *)
Lemma mcf_grafik_kur_ayna g :
  nx_iyi g → Forall (fun na => is_Some na.2) (nx.nodes g) →
  mcf_grafik_kur g = Dondu (mcf_aynasi g).
Proof.
  intros Hg Hall. pose proof Hg as (Hnd & Hkeys & Hadj).
  unfold mcf_grafik_kur.
  rewrite mcf_dugumleri_ekle_acilim; simpl; [|done|done|done].
  assert (map (fun na : dugum_id * option dugum_verisi =>
                 (na.1, ([] : list (dugum_id * mcf_hat)))) (nx.nodes g)
          = map (fun un => (un.1, [])) (nx._adj g)) as Hbos.
  { unfold nx.nodes.
    transitivity (map (fun k : dugum_id => (k, ([] : list (dugum_id * mcf_hat))))
                      (Sozluk.anahtarlar (nx._node g))).
    - unfold Sozluk.anahtarlar. by rewrite map_map.
    - rewrite <- Hkeys. unfold Sozluk.anahtarlar. by rewrite map_map. }
  rewrite Hbos. rewrite foldl_mcf_hat_ekle_komsuluk; simpl.
  - unfold nx.edges.
    pose proof (foldl_komsuluk_hepsi [] (nx._adj g)) as Hhepsi. simpl in Hhepsi.
    rewrite Hhepsi.
    + done.
    + by rewrite Hkeys.
    + eapply Forall_impl; [exact Hadj|]. by intros un [? _].
  - eapply Forall_impl; [apply (edges_uclari g Hg)|]. intros e.
    unfold Sozluk.anahtarlar. by rewrite !map_map.
Qed.

Lemma mcf_grafik_kur_ozelliksiz g :
  Exists (fun na => na.2 = None) (nx.nodes g) →
  mcf_grafik_kur g = Firlatti (KeyError "tip").
Proof.
  intros Hex. unfold mcf_grafik_kur.
  by rewrite mcf_dugumleri_ekle_ozelliksiz.
Qed.

Lemma ozellikli_ya_da_degil (ns : list (dugum_id * option dugum_verisi)) :
  Forall (fun na => is_Some na.2) ns ∨ Exists (fun na => na.2 = None) ns.
Proof.
  induction ns as [|[n [a|]] ns IH].
  - by left.
  - destruct IH as [IH|IH]; [left|right].
    + constructor; [by eexists|done].
    + by constructor 2.
  - right. by constructor.
Qed.

(** ** Sums *)





(** ** Unbalanced networks *)






(** ** The flow the solver is asked for *)





Lemma iki_dugum_iyi : iyi_sebeke iki_dugum.
Proof.
  unfold iki_dugum. apply hat_ekle_iyi. do 2 apply dugum_ekle_iyi. apply yeni_iyi.
Qed.




(** ** The scope of the write-back defect *)

Lemma aktarilan_akis_yalin flow_dict u v :
  Forall yalin (Sozluk.anahtarlar flow_dict) → aktarilan_akis flow_dict u v = Sayi 0.
Proof.
  intros Hy. unfold aktarilan_akis.
  destruct (Sozluk.bul flow_dict (Demet u v)) as [d|] eqn:Hb; [|done].
  assert (Demet u v ∈ Sozluk.anahtarlar flow_dict) as Hin.
  { apply var_true. unfold Sozluk.var. by rewrite Hb. }
  rewrite Forall_forall in Hy. destruct (Hy _ Hin).
Qed.

(** Whenever the solver's dictionary is keyed by strings or integers, a
    successful solve stores 0 in every flow field, whatever the solver
    computed. *)
Lemma cozum_yalin_sifir ns self mcf_graph cozum :
  mcf_grafik_kur (G self) = Dondu mcf_graph →
  ns mcf_graph = Dondu cozum →
  Forall yalin (Sozluk.anahtarlar cozum.2) →
  ∀ u v h, (u, v, h) ∈ nx.edges (G (min_maliyet_akis_hesapla ns self).1.1) →
           akis h = Sayi 0.
Proof.
  intros Hkur Hns Hy u v h. rewrite hesapla_acilim, Hkur, Hns.
  cbn [fst cozum_sonrasi G]. rewrite foldl_aktarim_hepsi.
  unfold nx.edges, hepsini_aktar; simpl.
  intros Hin%list_elem_of_In. apply in_flat_map in Hin as ([u' nbrs] & Hu & Hv).
  apply in_map_iff in Hu as ([u0 nbrs0] & [= -> <-] & _).
  simpl in Hv. apply in_map_iff in Hv as ([v' h'] & [= _ _ <-] & Hv).
  apply in_map_iff in Hv as ([v0 h0] & [= _ <-] & _).
  simpl. by apply aktarilan_akis_yalin.
Qed.

(** C1 (failing input): the solver moves 10 MW over the line of [iki_dugum],
    yet the method stores and returns 0 for it.  The solver's dictionary is
    keyed by nodes, so the pair [(u, v)] looked up at line 97 is not in it. *)
Theorem iki_dugum_cozum_sifir_yazar :
  let sonra := min_maliyet_akis_hesapla iki_dugum_cozucu iki_dugum in
  tablo_akisi iki_dugum_tablosu (Ad "A") (Ad "B") = 10%Q ∧
  sonra.1.2 = [] ∧
  sonra.2 = ([(Ad "A", [(Ad "B", Sayi 0)])], 10%Q) ∧
  nx.hat_bul (G sonra.1.1) (Ad "A") (Ad "B")
    = Some {| kapasite := 20; maliyet := 1; akis := Sayi 0 |}.
Proof. by vm_compute. Qed.

(** ** The solve method keeps the invariant of the object *)

Lemma foldl_aktarim_iyi flow_dict es g :
  nx_iyi g → nx_iyi (foldl (aktarim_adimi flow_dict) g es).
Proof.
  revert g. induction es as [|e es IH]; intros g Hg; simpl; [done|].
  apply IH. by apply hat_degistir_iyi.
Qed.

Lemma min_maliyet_akis_hesapla_iyi ns self :
  iyi_sebeke self → iyi_sebeke (min_maliyet_akis_hesapla ns self).1.1.
Proof.
  intros [Hg Ht]. rewrite hesapla_acilim.
  destruct (mcf_grafik_kur (G self)) as [mcf|e]; [|done].
  destruct (ns mcf) as [cozum|e]; [|done].
  cbn [fst cozum_sonrasi]. split; cbn [G].
  - by apply foldl_aktarim_iyi.
  - unfold dugumler_tutarli, nx.nodes. by rewrite foldl_aktarim_node.
Qed.

(** * Further properties *)

(** ** Dictionaries and graphs *)

Lemma bul_Some_ayir {K V : Type} `{EqDecision K} (d : list (K * V)) (k : K) (x : V) :
  NoDup (Sozluk.anahtarlar d) → Sozluk.bul d k = Some x →
  ∃ once sonra, d = once ++ (k, x) :: sonra ∧
                (k ∉ Sozluk.anahtarlar once) ∧ (k ∉ Sozluk.anahtarlar sonra).
Proof.
  induction d as [|[k' x'] d IH]; simpl; [done|].
  intros [Hk' Hnd]%NoDup_cons.
  destruct (decide (k = k')) as [->|Hne].
  - intros [= ->]. exists [], d. split_and!; [done|apply not_elem_of_nil|done].
  - intros Hb. destruct (IH Hnd Hb) as (once & sonra & -> & H1 & H2).
    exists ((k', x') :: once), sonra. split_and!; [done| |done].
    simpl. by apply not_elem_of_cons.
Qed.

Lemma bul_Some_elem {K V : Type} `{EqDecision K} (d : list (K * V)) (k : K) (x : V) :
  Sozluk.bul d k = Some x → (k, x) ∈ d.
Proof.
  induction d as [|[k' x'] d IH]; simpl; [done|].
  destruct (decide (k = k')) as [->|Hne].
  - intros [= ->]. by left.
  - intros Hb. right. by apply IH.
Qed.

Lemma elem_bul_Some {K V : Type} `{EqDecision K} (d : list (K * V)) (k : K) (x : V) :
  NoDup (Sozluk.anahtarlar d) → (k, x) ∈ d → Sozluk.bul d k = Some x.
Proof.
  induction d as [|[k' x'] d IH]; simpl.
  - by intros _ ?%elem_of_nil.
  - intros [Hk' Hnd]%NoDup_cons [[= -> ->]|Hin]%elem_of_cons.
    + by rewrite decide_True.
    + rewrite decide_False; [by apply IH|]. intros ->. apply Hk'.
      apply list_elem_of_In, in_map_iff. exists (k', x).
      split; [done|by apply list_elem_of_In].
Qed.

Section grafik_ek.
Context {N E : Type}.
Implicit Types (g : nx.DiGraph N E) (n u v : dugum_id).

Lemma edges_hazirla g n : nx.edges (nx.dugum_hazirla g n) = nx.edges g.
Proof.
  unfold nx.dugum_hazirla, nx.edges. destruct (Sozluk.var (nx._adj g) n); [done|].
  simpl. rewrite flat_map_app. simpl. by rewrite app_nil_r.
Qed.

Lemma hat_bul_hazirla g n u v :
  nx.hat_bul (nx.dugum_hazirla g n) u v = nx.hat_bul g u v.
Proof.
  unfold nx.dugum_hazirla, nx.hat_bul.
  destruct (Sozluk.var (nx._adj g) n); [done|]. simpl. rewrite bul_app.
  destruct (Sozluk.bul (nx._adj g) u); [done|]. simpl.
  by destruct (decide (u = n)).
Qed.


Lemma anahtarlar_hazirla g n :
  nx_iyi g →
  Sozluk.anahtarlar (nx._node (nx.dugum_hazirla g n))
  = if nx.has_node g n then Sozluk.anahtarlar (nx._node g)
    else Sozluk.anahtarlar (nx._node g) ++ [n].
Proof.
  intros Hg. unfold nx.dugum_hazirla, nx.has_node.
  rewrite (iyi_var_dugum g n Hg).
  destruct (Sozluk.var (nx._adj g) n); [done|]. simpl.
  by rewrite anahtarlar_app.
Qed.

(** Under the invariant, the enumeration of the edges and the lookup of an
    edge agree. *)
Lemma edges_hat_bul g u v (h : E) :
  nx_iyi g → ((u, v, h) ∈ nx.edges g ↔ nx.hat_bul g u v = Some h).
Proof.
  intros (Hnd & Hkeys & Hadj). rewrite <- Hkeys in Hnd. unfold nx.hat_bul. split.
  - intros Hin%list_elem_of_In. apply in_flat_map in Hin as ([u' nbrs] & Hu & Hv).
    apply in_map_iff in Hv as ([v' h'] & [= -> -> ->] & Hv). simpl in *.
    apply list_elem_of_In in Hu, Hv.
    rewrite (elem_bul_Some _ _ _ Hnd Hu).
    rewrite Forall_forall in Hadj. destruct (Hadj _ Hu) as [Hn _].
    by apply elem_bul_Some.
  - destruct (Sozluk.bul (nx._adj g) u) as [nbrs|] eqn:Hu; [|done].
    intros Hv. apply bul_Some_elem in Hu, Hv.
    apply list_elem_of_In, in_flat_map. exists (u, nbrs).
    split; [by apply list_elem_of_In|]. simpl. apply in_map_iff.
    exists (v, h). split; [done|by apply list_elem_of_In].
Qed.
End grafik_ek.

(** ** Adding and redefining nodes *)



(** X2: on a well-formed network, a node that is added again keeps its place
    in the node order and the number of nodes stays the same; a new node goes
    last. *)
Theorem dugum_ekle_sirasi self dugum talep uretim :
  nx_iyi (G self) →
  Sozluk.anahtarlar (nx.nodes (G (dugum_ekle self dugum talep uretim)))
  = if nx.has_node (G self) dugum
    then Sozluk.anahtarlar (nx.nodes (G self))
    else Sozluk.anahtarlar (nx.nodes (G self)) ++ [dugum].
Proof.
  intros Hg. cbn [dugum_ekle G G_yaz nx.add_node nx._node nx.nodes].
  rewrite anahtarlar_koy.
  pose proof (hazirla_var (G self) dugum) as Hv.
  rewrite <- (iyi_var_dugum _ _ (hazirla_iyi _ dugum Hg)) in Hv. rewrite Hv.
  by apply anahtarlar_hazirla.
Qed.

Lemma dugum_ekle_sirasi_ornek :
  nx_iyi (G iki_dugum) ∧
  Sozluk.anahtarlar (nx.nodes (G (dugum_ekle iki_dugum (Ad "A") 3 7)))
  = [Ad "A"; Ad "B"] ∧
  Sozluk.anahtarlar (nx.nodes (G (dugum_ekle iki_dugum (Ad "C") 3 7)))
  = [Ad "A"; Ad "B"; Ad "C"].
Proof.
  split; [apply iki_dugum_iyi|]. split.
  - apply (dugum_ekle_sirasi iki_dugum (Ad "A") 3 7). apply iki_dugum_iyi.
  - apply (dugum_ekle_sirasi iki_dugum (Ad "C") 3 7). apply iki_dugum_iyi.
Defined.

(** ** Adding and overwriting lines *)

(** X3: [hat_ekle] touches one ordered pair only.  Every other pair, the
    reverse pair [(hedef, kaynak)] included, is looked up as before. *)
Theorem hat_ekle_diger_hatlar self kaynak hedef kapasite maliyet akis u v :
  ¬ (u = kaynak ∧ v = hedef) →
  nx.hat_bul (G (hat_ekle self kaynak hedef kapasite maliyet akis)) u v
  = nx.hat_bul (G self) u v.
Proof.
  intros Hne. cbn [hat_ekle G G_yaz]. unfold nx.add_edge, nx.hat_bul at 1; simpl.
  rewrite bul_degistir.
  pose proof (hat_bul_hazirla (nx.dugum_hazirla (G self) kaynak) hedef u v) as H2.
  rewrite (hat_bul_hazirla (G self) kaynak u v) in H2. unfold nx.hat_bul at 1 in H2.
  destruct (decide (u = kaynak)) as [->|Hu]; [|done].
  destruct (Sozluk.bul (nx._adj (nx.dugum_hazirla (nx.dugum_hazirla (G self) kaynak) hedef))
              kaynak) as [nbrs|]; simpl; [|done].
  rewrite bul_koy_ne; [done|]. intros ->. by apply Hne.
Qed.

Lemma hat_ekle_diger_hatlar_ornek :
  ¬ (Ad "B" = Ad "A" ∧ Ad "A" = Ad "B") ∧
  nx.hat_bul (G (hat_ekle iki_dugum (Ad "A") (Ad "B") 5 5 5)) (Ad "B") (Ad "A") = None.
Proof.
  split; [by intros [[=] _]|].
  rewrite (hat_ekle_diger_hatlar iki_dugum (Ad "A") (Ad "B") 5 5 5 (Ad "B") (Ad "A")).
  - by vm_compute.
  - by intros [[=] _].
Defined.

Lemma hat_kimlikleri_grup {E : Type} (u : dugum_id) (nbrs : list (dugum_id * E)) :
  map fst (map (fun ve : dugum_id * E => (u, ve.1, ve.2)) nbrs)
  = map (pair u) (Sozluk.anahtarlar nbrs).
Proof. unfold Sozluk.anahtarlar. rewrite !map_map. done. Qed.

Lemma edges_degistir_koy {N E : Type} (g : nx.DiGraph N E) u v (a : E) :
  NoDup (Sozluk.anahtarlar (nx._adj g)) → u ∈ Sozluk.anahtarlar (nx._adj g) →
  let g' := {| nx._node := nx._node g;
               nx._adj := Sozluk.degistir (nx._adj g) u
                            (fun nbrs => Sozluk.koy nbrs v a) |} in
  if nx.has_edge g u v
  then map fst (nx.edges g') = map fst (nx.edges g)
  else length (nx.edges g') = S (length (nx.edges g)).
Proof.
  intros Hnd Hu. cbv zeta. unfold nx.has_edge, nx.edges; simpl.
  apply var_true in Hu. unfold Sozluk.var in Hu.
  destruct (Sozluk.bul (nx._adj g) u) as [nbrs|] eqn:Hb; [|done].
  destruct (bul_Some_ayir _ _ _ Hnd Hb) as (once & sonra & -> & H1 & H2).
  rewrite degistir_app. simpl. rewrite !(degistir_yok once) by done.
  unfold Sozluk.degistir at 1; simpl. rewrite decide_True by done.
  fold (Sozluk.degistir sonra u (fun nbrs => Sozluk.koy nbrs v a)).
  rewrite (degistir_yok sonra) by done.
  rewrite !flat_map_app. simpl.
  destruct (Sozluk.var nbrs v) eqn:Hv.
  - rewrite !map_app, !hat_kimlikleri_grup, anahtarlar_koy, Hv. done.
  - apply var_false in Hv. rewrite koy_taze by done.
    rewrite !length_app, !length_map, length_app. simpl. lia.
Qed.

(** X4: there are no parallel lines.  On a well-formed network, [hat_ekle]
    on a pair that already has a line leaves the sequence of line identities
    as it was (the attributes are overwritten in place); on a new pair the
    number of lines grows by one. *)
Theorem hat_ekle_hat_sayisi self kaynak hedef kapasite maliyet akis :
  nx_iyi (G self) →
  let self' := hat_ekle self kaynak hedef kapasite maliyet akis in
  if nx.has_edge (G self) kaynak hedef
  then map fst (nx.edges (G self')) = map fst (nx.edges (G self))
  else length (nx.edges (G self')) = S (length (nx.edges (G self))).
Proof.
  intros Hg. cbv zeta. cbn [hat_ekle G G_yaz]. unfold nx.add_edge.
  set (g2 := nx.dugum_hazirla (nx.dugum_hazirla (G self) kaynak) hedef).
  assert (nx_iyi g2) as (Hnd & Hkeys & _) by (by do 2 apply hazirla_iyi).
  rewrite <- Hkeys in Hnd.
  assert (kaynak ∈ Sozluk.anahtarlar (nx._adj g2)) as Hu.
  { apply var_true, hazirla_var_korur, hazirla_var. }
  pose proof (edges_degistir_koy g2 kaynak hedef
                {| kapasite := kapasite; maliyet := maliyet; akis := Sayi akis |}
                Hnd Hu) as Hson.
  cbv zeta in Hson.
  assert (nx.has_edge g2 kaynak hedef = nx.has_edge (G self) kaynak hedef) as Hhe.
  { rewrite !has_edge_hat_bul. unfold g2. by rewrite !hat_bul_hazirla. }
  assert (nx.edges g2 = nx.edges (G self)) as Hed.
  { unfold g2. by rewrite !edges_hazirla. }
  rewrite Hhe, Hed in Hson. exact Hson.
Qed.

Lemma hat_ekle_hat_sayisi_ornek :
  nx_iyi (G iki_dugum) ∧
  map fst (nx.edges (G (hat_ekle iki_dugum (Ad "A") (Ad "B") 5 5 5)))
  = [(Ad "A", Ad "B")] ∧
  length (nx.edges (G (hat_ekle iki_dugum (Ad "B") (Ad "A") 5 5 5))) = 2%nat.
Proof.
  split; [apply iki_dugum_iyi|]. split.
  - apply (hat_ekle_hat_sayisi iki_dugum (Ad "A") (Ad "B") 5 5 5). apply iki_dugum_iyi.
  - apply (hat_ekle_hat_sayisi iki_dugum (Ad "B") (Ad "A") 5 5 5). apply iki_dugum_iyi.
Defined.

(** ** Manual flows *)

Lemma hat_degistir_akis_yaz_iki (g : nx.DiGraph dugum_verisi hat_verisi) u v x y :
  nx.hat_degistir (nx.hat_degistir g u v (akis_yaz x)) u v (akis_yaz y)
  = nx.hat_degistir g u v (akis_yaz y).
Proof.
  unfold nx.hat_degistir, Sozluk.degistir; simpl. f_equal.
  rewrite map_map. apply map_ext. intros [u' nbrs]; simpl.
  destruct (decide (u' = u)) as [->|Hu]; simpl.
  - rewrite decide_True by done. f_equal. rewrite map_map. apply map_ext.
    intros [v' h]; simpl. destruct (decide (v' = v)) as [->|Hv]; simpl.
    + by rewrite decide_True.
    + by rewrite decide_False.
  - by rewrite decide_False.
Qed.

Lemma has_edge_hat_degistir {N E : Type} (g : nx.DiGraph N E) u v (f : E → E) u' v' :
  nx.has_edge (nx.hat_degistir g u v f) u' v' = nx.has_edge g u' v'.
Proof.
  rewrite !has_edge_hat_bul, hat_bul_hat_degistir.
  destruct (decide (u' = u ∧ v' = v)); [|done].
  by destruct (nx.hat_bul g u' v').
Qed.

(** X5: the last manual assignment wins.  Assigning a flow to a line and
    then another one to the same line leaves the object, and prints, exactly
    what the second assignment alone does. *)
Theorem akis_ata_son_yazan self kaynak hedef x y :
  akis_ata (akis_ata self kaynak hedef x).1 kaynak hedef y
  = akis_ata self kaynak hedef y.
Proof.
  unfold akis_ata.
  destruct (nx.has_edge (G self) kaynak hedef) eqn:Hhe; cbn [fst G G_yaz].
  - rewrite has_edge_hat_degistir, Hhe. cbn [G_yaz ad sonuclar G].
    by rewrite hat_degistir_akis_yaz_iki.
  - by rewrite Hhe.
Qed.

(** ** Solving *)

Lemma ozelliksiz_cozum ns self :
  Exists (fun na => na.2 = None) (nx.nodes (G self)) →
  min_maliyet_akis_hesapla ns self = (self, [AkisHatasi (KeyError "tip")], ([], 0%Q)).
Proof.
  intros Hex. rewrite hesapla_acilim. by rewrite mcf_grafik_kur_ozelliksiz.
Qed.

Lemma hat_ekle_ozelliksiz self kaynak hedef kapasite maliyet akis :
  nx_iyi (G self) →
  nx.has_node (G self) kaynak = false ∨ nx.has_node (G self) hedef = false →
  Exists (fun na => na.2 = None)
         (nx.nodes (G (hat_ekle self kaynak hedef kapasite maliyet akis))).
Proof.
  intros Hg Hyok.
  assert (∃ n, Sozluk.bul (nx._node (G (hat_ekle self kaynak hedef kapasite maliyet akis))) n
               = Some None) as [n Hn].
  { cbn [hat_ekle G G_yaz nx.add_edge nx._node].
    pose proof (hazirla_iyi _ kaynak Hg) as Hg1.
    destruct Hyok as [Hk|Hh].
    - exists kaynak. rewrite hazirla_dugum_bul by done.
      unfold nx.has_node, Sozluk.var. rewrite !hazirla_dugum_bul by done.
      rewrite Hk. by rewrite decide_True.
    - exists hedef. rewrite hazirla_dugum_bul by done.
      unfold nx.has_node at 1, Sozluk.var. rewrite !hazirla_dugum_bul by done.
      rewrite Hh. destruct (decide (hedef = kaynak)); [done|].
      by rewrite decide_True. }
  apply bul_Some_elem in Hn. apply Exists_exists. by exists (n, None).
Qed.

(** X6: the missing node shows at solve time.  After [hat_ekle] with an
    endpoint that was not a node of a well-formed network, every solve,
    whatever the solver, fails with [KeyError('tip')] before the solver is
    called: it prints the exception, returns the pair of an empty dictionary
    and 0 and leaves the object as it was. *)
Theorem bilinmeyen_uclu_hat_cozumu_bozar ns self kaynak hedef kapasite maliyet akis :
  nx_iyi (G self) →
  nx.has_node (G self) kaynak = false ∨ nx.has_node (G self) hedef = false →
  let self' := hat_ekle self kaynak hedef kapasite maliyet akis in
  min_maliyet_akis_hesapla ns self' = (self', [AkisHatasi (KeyError "tip")], ([], 0%Q)).
Proof.
  intros Hg Hyok. cbv zeta. apply ozelliksiz_cozum. by apply hat_ekle_ozelliksiz.
Qed.

Lemma bilinmeyen_uclu_hat_cozumu_bozar_ornek :
  nx_iyi (G iki_dugum) ∧
  nx.has_node (G iki_dugum) (Ad "C") = false ∧
  min_maliyet_akis_hesapla iki_dugum_cozucu (hat_ekle iki_dugum (Ad "A") (Ad "C") 5 1 0)
  = (hat_ekle iki_dugum (Ad "A") (Ad "C") 5 1 0,
     [AkisHatasi (KeyError "tip")], ([], 0%Q)).
Proof.
  split; [apply iki_dugum_iyi|]. split; [done|].
  apply (bilinmeyen_uclu_hat_cozumu_bozar iki_dugum_cozucu iki_dugum (Ad "A") (Ad "C") 5 1 0).
  - apply iki_dugum_iyi.
  - by right.
Defined.

Lemma cozum_sonrasi_G self cozum :
  G (cozum_sonrasi self cozum).1 = hepsini_aktar cozum.2 (G self).
Proof. cbn [cozum_sonrasi fst G]. apply foldl_aktarim_hepsi. Qed.

Lemma hepsini_aktar_node flow_dict g :
  nx._node (hepsini_aktar flow_dict g) = nx._node g.
Proof. done. Qed.

Lemma hepsini_aktar_iskeleti_ayni flow_dict g :
  hat_iskeleti (hepsini_aktar flow_dict g) = hat_iskeleti g.
Proof.
  unfold hepsini_aktar, hat_iskeleti; simpl. rewrite map_map.
  apply map_ext. intros [u nbrs]; simpl. f_equal. rewrite map_map.
  apply map_ext. intros [v h]; done.
Qed.

(** X7: solving again changes nothing.  A second solve right after a solve
    returns and prints the same as the first and leaves the object the first
    solve left. *)
Theorem cozum_tekrari ns self :
  min_maliyet_akis_hesapla ns (min_maliyet_akis_hesapla ns self).1.1
  = min_maliyet_akis_hesapla ns self.
Proof.
  rewrite (hesapla_acilim ns self).
  destruct (mcf_grafik_kur (G self)) as [mcf|e] eqn:Hkur.
  - destruct (ns mcf) as [cozum|e] eqn:Hns; cbn [fst].
    + rewrite hesapla_acilim. rewrite mcf_grafik_kur_iskelet.
      rewrite cozum_sonrasi_G, hepsini_aktar_node, hepsini_aktar_iskeleti_ayni.
      rewrite <- mcf_grafik_kur_iskelet, Hkur, Hns.
      unfold cozum_sonrasi at 1 3. cbn [fst snd ad G sonuclar].
      rewrite !foldl_aktarim_hepsi.
      rewrite cozum_sonrasi_G.
      rewrite (hepsini_aktar_es cozum.2 (hepsini_aktar cozum.2 (G self)) (G self))
        by (done || apply hepsini_aktar_iskeleti_ayni).
      unfold cozum_sonrasi. cbn [fst snd ad G sonuclar].
      rewrite !foldl_aktarim_hepsi. f_equal. f_equal. f_equal.
      apply map_eq. intros k. rewrite !lookup_insert. by repeat case_decide.
    + by rewrite hesapla_acilim, Hkur, Hns.
  - cbn [fst]. by rewrite hesapla_acilim, Hkur.
Qed.

(** ** The dictionary the solve returns *)

Lemma foldl_koy_akis (acc : list (dugum_id * deger)) (hs : list (dugum_id * hat_verisi)) :
  NoDup (Sozluk.anahtarlar acc ++ Sozluk.anahtarlar hs) →
  foldl (fun d vh => Sozluk.koy d vh.1 (akis vh.2)) acc hs
  = acc ++ map (fun vh => (vh.1, akis vh.2)) hs.
Proof.
  revert acc. induction hs as [|[v h] hs IH]; intros acc Hnd; simpl.
  - by rewrite app_nil_r.
  - assert (v ∉ Sozluk.anahtarlar acc) as Hv.
    { apply NoDup_app in Hnd as (_ & Hdis & _). intros Hin.
      apply (Hdis v Hin). by left. }
    rewrite koy_taze by done. rewrite IH.
    + by rewrite <- app_assoc.
    + rewrite anahtarlar_app, <- app_assoc. done.
Qed.

(** The rounds of the collecting loop for the successors of one node, once
    the node has its entry. *)
Lemma foldl_akislar_grup (bitmis : akis_sozlugu) u d (hs : list (dugum_id * hat_verisi)) :
  u ∉ Sozluk.anahtarlar bitmis →
  foldl akislar_ekle (bitmis ++ [(u, d)]) (map (fun vh => (u, vh.1, vh.2)) hs)
  = bitmis ++ [(u, foldl (fun d vh => Sozluk.koy d vh.1 (akis vh.2)) d hs)].
Proof.
  intros Hu. revert d. induction hs as [|[v h] hs IH]; intros d; simpl; [done|].
  unfold akislar_ekle at 2; simpl.
  assert (Sozluk.var (bitmis ++ [(u, d)]) u = true) as ->.
  { apply var_true. rewrite anahtarlar_app. apply elem_of_app. right. by left. }
  rewrite degistir_app, (degistir_yok bitmis) by done.
  unfold Sozluk.degistir; simpl. rewrite decide_True by done. apply IH.
Qed.

Lemma foldl_akislar_hepsi (bitmis : akis_sozlugu)
    (kalan : list (dugum_id * list (dugum_id * hat_verisi))) :
  NoDup (Sozluk.anahtarlar bitmis ++ Sozluk.anahtarlar kalan) →
  Forall (fun un => NoDup (Sozluk.anahtarlar un.2)) kalan →
  foldl akislar_ekle bitmis
        (flat_map (fun un => map (fun ve => (un.1, ve.1, ve.2)) un.2) kalan)
  = bitmis ++ akislar_aynasi kalan.
Proof.
  revert bitmis. induction kalan as [|[u hs] kalan IH]; intros bitmis Hnd Hin; simpl.
  - by rewrite app_nil_r.
  - apply Forall_cons in Hin as [Hhs Hin]. simpl in Hhs.
    rewrite foldl_app.
    assert ((u ∉ Sozluk.anahtarlar bitmis) ∧ (u ∉ Sozluk.anahtarlar kalan)) as [Hu1 Hu2].
    { apply NoDup_app in Hnd as (_ & Hdis & Hk). simpl in Hk.
      apply NoDup_cons in Hk as [? _]. split; [|done].
      intros Hb. apply (Hdis u Hb). by left. }
    assert (NoDup (Sozluk.anahtarlar bitmis ++ Sozluk.anahtarlar kalan)) as Hnd'.
    { apply NoDup_app in Hnd as (H1 & Hdis & Hk). simpl in Hk.
      apply NoDup_cons in Hk as [_ Hk]. apply NoDup_app. split_and!; [done| |done].
      intros x Hx Hx'. apply (Hdis x Hx). by right. }
    destruct hs as [|[v h] hs].
    + simpl. unfold akislar_aynasi. simpl. by apply IH.
    + cbn [map foldl fst snd].
      assert (akislar_ekle bitmis (u, v, h) = bitmis ++ [(u, [(v, akis h)])]) as ->.
      { unfold akislar_ekle. cbn [fst snd].
        rewrite (proj2 (var_false bitmis u) Hu1).
        rewrite (koy_taze bitmis) by done.
        rewrite degistir_app, (degistir_yok bitmis) by done.
        unfold Sozluk.degistir. cbn [map fst snd]. by rewrite decide_True. }
      rewrite foldl_akislar_grup by done.
      rewrite foldl_koy_akis.
      * rewrite IH; [| |done].
        -- unfold akislar_aynasi. simpl. by rewrite <- app_assoc.
        -- rewrite anahtarlar_app, <- app_assoc. simpl.
           apply NoDup_app in Hnd as (H1 & Hdis & Hk). apply NoDup_app.
           split_and!; [done| |done]. intros x Hx Hx'. by apply (Hdis x Hx).
      * exact Hhs.
Qed.

Lemma akislari_topla_ayna (g : nx.DiGraph dugum_verisi hat_verisi) :
  nx_iyi g → akislari_topla (nx.edges g) = akislar_aynasi (nx._adj g).
Proof.
  intros (Hnd & Hkeys & Hadj). unfold akislari_topla, nx.edges.
  rewrite (foldl_akislar_hepsi [] (nx._adj g)); [done| |].
  - simpl. by rewrite Hkeys.
  - eapply Forall_impl; [exact Hadj|]. by intros un [? _].
Qed.

Lemma bul_map_akis (nbrs : list (dugum_id * hat_verisi)) v :
  Sozluk.bul (map (fun vh => (vh.1, akis vh.2)) nbrs) v = akis <$> Sozluk.bul nbrs v.
Proof.
  induction nbrs as [|[v' h] nbrs IH]; simpl; [done|].
  by destruct (decide (v = v')).
Qed.

Lemma akislar_bul_ayna (adj : list (dugum_id * list (dugum_id * hat_verisi))) u v :
  NoDup (Sozluk.anahtarlar adj) →
  akislar_bul (akislar_aynasi adj) u v
  = akis <$> match Sozluk.bul adj u with
             | Some nbrs => Sozluk.bul nbrs v
             | None => None
             end.
Proof.
  unfold akislar_bul, akislar_aynasi.
  induction adj as [|[u' nbrs] adj IH]; simpl; [done|].
  intros [Hu' Hnd]%NoDup_cons.
  destruct nbrs as [|vh nbrs]; simpl.
  - rewrite (IH Hnd). destruct (decide (u = u')) as [->|Hne]; [|done].
    apply bul_None in Hu'. by rewrite Hu'.
  - destruct (decide (u = u')) as [->|Hne]; [|by apply IH].
    apply (bul_map_akis (vh :: nbrs)).
Qed.

(** X8: the dictionary a successful solve returns mirrors the flow fields it
    has stored.  On a well-formed network, [akislar[u][v]] is there exactly
    when the line [(u, v)] is, and it is what the flow field of that line
    holds after the call. *)
Theorem donen_akislar_kayitli ns self u v :
  nx_iyi (G self) →
  (min_maliyet_akis_hesapla ns self).1.2 = [] →
  akislar_bul (min_maliyet_akis_hesapla ns self).2.1 u v
  = akis <$> nx.hat_bul (G (min_maliyet_akis_hesapla ns self).1.1) u v.
Proof.
  intros Hg. rewrite hesapla_acilim.
  destruct (mcf_grafik_kur (G self)) as [mcf|e]; [|done].
  destruct (ns mcf) as [cozum|e]; [|done].
  intros _. cbn [fst snd cozum_sonrasi G].
  assert (nx_iyi (foldl (aktarim_adimi cozum.2) (G self) (nx.edges (G self)))) as Hg'
    by (by apply foldl_aktarim_iyi).
  rewrite akislari_topla_ayna by done.
  destruct Hg' as (Hnd & Hkeys & _). rewrite <- Hkeys in Hnd.
  by rewrite akislar_bul_ayna.
Qed.

Lemma donen_akislar_kayitli_ornek :
  nx_iyi (G iki_dugum) ∧
  (min_maliyet_akis_hesapla iki_dugum_cozucu iki_dugum).1.2 = [] ∧
  akislar_bul (min_maliyet_akis_hesapla iki_dugum_cozucu iki_dugum).2.1 (Ad "A") (Ad "B")
  = akis <$> nx.hat_bul (G (min_maliyet_akis_hesapla iki_dugum_cozucu iki_dugum).1.1)
               (Ad "A") (Ad "B").
Proof.
  split; [apply iki_dugum_iyi|]. split; [by vm_compute|].
  apply (donen_akislar_kayitli iki_dugum_cozucu iki_dugum (Ad "A") (Ad "B")).
  - apply iki_dugum_iyi.
  - by vm_compute.
Defined.

(** ** Bottlenecks after a solve *)

Lemma sifir_kullanim (k : Q) : (0 / k * 100 == 0)%Q.
Proof. unfold Qdiv. by rewrite !Qmult_0_l. Qed.

Lemma sifir_akis_aday_yok esik es :
  (0 < esik)%Q → Forall (fun e => akis e.2 = Sayi 0) es →
  omap (darbogaz_adayi esik) es = [].
Proof.
  intros Hesik Hes. induction Hes as [|e es He Hes IH]; simpl; [done|].
  unfold darbogaz_adayi at 1. rewrite He.
  destruct (Qgt_bool (kapasite e.2) 0); simpl; [|done].
  destruct (Qle_bool esik (0 / kapasite e.2 * 100)) eqn:Hle; [|done].
  apply Qle_bool_iff in Hle. rewrite sifir_kullanim in Hle. lra.
Qed.

(** X9: after a successful solve the bottleneck list is empty.  Whenever the
    dictionary of the solver is keyed by strings or integers, the flow fields
    the solve leaves are all 0, so [darbogazlari_bul] returns the empty list
    for every positive threshold. *)
Theorem cozum_sonrasi_darbogaz_yok ns self mcf_graph cozum esik_yuzdesi :
  mcf_grafik_kur (G self) = Dondu mcf_graph →
  ns mcf_graph = Dondu cozum →
  Forall yalin (Sozluk.anahtarlar cozum.2) →
  (0 < esik_yuzdesi)%Q →
  darbogazlari_bul (min_maliyet_akis_hesapla ns self).1.1 esik_yuzdesi = Dondu [].
Proof.
  intros Hkur Hns Hy Hesik.
  assert (Forall (fun e => akis e.2 = Sayi 0)
                 (nx.edges (G (min_maliyet_akis_hesapla ns self).1.1))) as Hsifir.
  { apply Forall_forall. intros [[u v] h] Hin.
    by apply (cozum_yalin_sifir ns self mcf_graph cozum Hkur Hns Hy u v h). }
  rewrite darbogazlari_bul_sayisal.
  - by rewrite sifir_akis_aday_yok.
  - unfold sayisal. eapply Forall_impl; [exact Hsifir|]. intros e He. by rewrite He.
Qed.

Lemma cozum_sonrasi_darbogaz_yok_ornek :
  mcf_grafik_kur (G iki_dugum) = Dondu (mcf_aynasi (G iki_dugum)) ∧
  Forall yalin (Sozluk.anahtarlar iki_dugum_tablosu) ∧
  darbogazlari_bul (min_maliyet_akis_hesapla iki_dugum_cozucu iki_dugum).1.1 90 = Dondu [].
Proof.
  assert (Forall yalin (Sozluk.anahtarlar iki_dugum_tablosu)) as Hy
    by (repeat constructor).
  split; [by vm_compute|]. split; [exact Hy|].
  apply (cozum_sonrasi_darbogaz_yok iki_dugum_cozucu iki_dugum
           (mcf_aynasi (G iki_dugum)) (10%Q, iki_dugum_tablosu) 90).
  - by vm_compute.
  - done.
  - exact Hy.
  - by vm_compute.
Defined.

(** ** What every sequence of calls keeps *)

Lemma akis_ata_sonuclar self kaynak hedef x :
  sonuclar (akis_ata self kaynak hedef x).1 = sonuclar self ∧
  ad (akis_ata self kaynak hedef x).1 = ad self.
Proof. unfold akis_ata. by destruct (nx.has_edge (G self) kaynak hedef). Qed.

Lemma hesapla_sonuclar_tutarli ns self :
  sonuclar_tutarli self → sonuclar_tutarli (min_maliyet_akis_hesapla ns self).1.1.
Proof.
  intros Hs. rewrite hesapla_acilim.
  destruct (mcf_grafik_kur (G self)) as [mcf|e]; [|done].
  destruct (ns mcf) as [cozum|e]; [|done].
  cbn [fst cozum_sonrasi]. right. unfold sonuclar_tutarli in Hs. cbn [sonuclar].
  eexists _, _. destruct Hs as [->|(a & q & ->)]; [done|].
  apply map_eq. intros k. rewrite !lookup_insert. by repeat case_decide.
Qed.

Lemma hesapla_ad ns self : ad (min_maliyet_akis_hesapla ns self).1.1 = ad self.
Proof.
  rewrite hesapla_acilim.
  destruct (mcf_grafik_kur (G self)) as [mcf|e]; [|done].
  by destruct (ns mcf) as [cozum|e].
Qed.

Lemma cagir_korur ns self c :
  iyi_sebeke self ∧ sonuclar_tutarli self →
  iyi_sebeke (cagir ns self c) ∧ sonuclar_tutarli (cagir ns self c) ∧
  ad (cagir ns self c) = ad self.
Proof.
  intros [Hi Hs]. destruct c; simpl.
  - split_and!; [by apply dugum_ekle_iyi|done|done].
  - split_and!; [by apply hat_ekle_iyi|done|done].
  - destruct (akis_ata_sonuclar self kaynak hedef akis_degeri) as [Hso Had].
    split_and!; [by apply akis_ata_iyi| |done].
    unfold sonuclar_tutarli. by rewrite Hso.
  - split_and!; [by apply min_maliyet_akis_hesapla_iyi
                |by apply hesapla_sonuclar_tutarli|apply hesapla_ad].
Qed.

(** X10: what every object built by the methods keeps.  Starting from
    [ElektrikSebekesi(ad)], after any sequence of [dugum_ekle], [hat_ekle],
    [akis_ata] and [min_maliyet_akis_hesapla] calls (with any solver): node
    keys are unique, the node and adjacency dictionaries have the same keys
    in the same order, the endpoints of every line are nodes, every node
    that carries attributes has [net = uretim - talep] and the role of the
    sign of [net], [sonuclar] is empty or holds exactly the two entries of a
    solve, and the name is the one given. *)
Theorem cagrilar_degismezi ns ad0 (cs : list cagri) :
  let self := foldl (cagir ns) (yeni ad0) cs in
  iyi_sebeke self ∧ sonuclar_tutarli self ∧ ad self = ad0.
Proof.
  cbv zeta.
  assert (∀ self, iyi_sebeke self ∧ sonuclar_tutarli self →
          iyi_sebeke (foldl (cagir ns) self cs) ∧
          sonuclar_tutarli (foldl (cagir ns) self cs) ∧
          ad (foldl (cagir ns) self cs) = ad self) as Hgenel.
  { induction cs as [|c cs IH]; intros self Hself; simpl.
    - by destruct Hself.
    - destruct (cagir_korur ns self c Hself) as (H1 & H2 & H3).
      destruct (IH (cagir ns self c) (conj H1 H2)) as (H4 & H5 & H6).
      split_and!; [done|done|congruence]. }
  apply (Hgenel (yeni ad0)). split; [apply yeni_iyi|by left].
Qed.

Lemma Forall_edges {N E : Type} (P : E → Prop) (g : nx.DiGraph N E) :
  Forall (fun e => P e.2) (nx.edges g)
  ↔ Forall (fun un => Forall (fun vh => P vh.2) un.2) (nx._adj g).
Proof.
  unfold nx.edges. induction (nx._adj g) as [|[u nbrs] adj IH]; simpl.
  - split; constructor.
  - rewrite Forall_app, Forall_cons, IH, Forall_map. simpl. done.
Qed.

Lemma sayisal_add_edge (g : nx.DiGraph dugum_verisi hat_verisi) u v k m a :
  sayisal g →
  sayisal (nx.add_edge g u v {| kapasite := k; maliyet := m; akis := Sayi a |}).
Proof.
  unfold sayisal. rewrite <- (edges_hazirla g u).
  rewrite <- (edges_hazirla (nx.dugum_hazirla g u) v).
  rewrite !(Forall_edges
              (fun h => match akis h with Sayi _ => True | IcSozluk _ => False end)).
  unfold nx.add_edge; simpl. intros Hs. unfold Sozluk.degistir. apply Forall_map.
  eapply Forall_impl; [exact Hs|]. intros [u' nbrs] Hn; simpl in *.
  destruct (decide (u' = u)); simpl; [|done].
  by apply Forall_koy.
Qed.

Lemma sayisal_hat_degistir (g : nx.DiGraph dugum_verisi hat_verisi) u v x :
  sayisal g → sayisal (nx.hat_degistir g u v (akis_yaz (Sayi x))).
Proof.
  unfold sayisal.
  rewrite !(Forall_edges
              (fun h => match akis h with Sayi _ => True | IcSozluk _ => False end)).
  unfold nx.hat_degistir, Sozluk.degistir; simpl. intros Hs. apply Forall_map.
  eapply Forall_impl; [exact Hs|]. intros [u' nbrs] Hn; simpl in *.
  destruct (decide (u' = u)); simpl; [|done].
  apply Forall_map. eapply Forall_impl; [exact Hn|]. intros [v' h] Hh; simpl in *.
  by destruct (decide (v' = v)).
Qed.

Lemma sayisal_hepsini_aktar flow_dict (g : nx.DiGraph dugum_verisi hat_verisi) :
  Forall yalin (Sozluk.anahtarlar flow_dict) → sayisal (hepsini_aktar flow_dict g).
Proof.
  intros Hy. unfold sayisal.
  rewrite (Forall_edges
             (fun h => match akis h with Sayi _ => True | IcSozluk _ => False end)).
  unfold hepsini_aktar; simpl. apply Forall_map, Forall_forall. intros [u nbrs] _; simpl.
  apply Forall_map, Forall_forall. intros [v h] _; simpl.
  by rewrite aktarilan_akis_yalin.
Qed.

Lemma yalin_hazirla {N E : Type} (g : nx.DiGraph N E) n :
  nx_iyi g → yalin n →
  Forall yalin (Sozluk.anahtarlar (nx._node g)) →
  Forall yalin (Sozluk.anahtarlar (nx._node (nx.dugum_hazirla g n))).
Proof.
  intros Hg Hn Hy. rewrite anahtarlar_hazirla by done.
  destruct (nx.has_node g n); [done|]. apply Forall_app. split; [done|by constructor].
Qed.

Lemma anahtarlar_ayna g :
  Sozluk.anahtarlar (nx._node (mcf_aynasi g)) = Sozluk.anahtarlar (nx._node g).
Proof. unfold mcf_aynasi, Sozluk.anahtarlar; simpl. by rewrite map_map. Qed.

Lemma cagir_yalin ns self c :
  (∀ g cozum, ns g = Dondu cozum →
     Forall (fun k => k ∈ Sozluk.anahtarlar (nx._node g)) (Sozluk.anahtarlar cozum.2)) →
  Forall yalin (cagri_dugumleri c) →
  iyi_sebeke self →
  Forall yalin (Sozluk.anahtarlar (nx._node (G self))) ∧ sayisal (G self) →
  Forall yalin (Sozluk.anahtarlar (nx._node (G (cagir ns self c)))) ∧
  sayisal (G (cagir ns self c)).
Proof.
  intros Hns Hc [Hg Ht] [Hy Hs]. destruct c; simpl in *.
  - apply Forall_cons in Hc as [Hd _]. split.
    + unfold nx.add_node; simpl. rewrite anahtarlar_koy.
      pose proof (hazirla_var (G self) dugum) as Hv.
      rewrite <- (iyi_var_dugum _ _ (hazirla_iyi _ dugum Hg)) in Hv. rewrite Hv.
      by apply yalin_hazirla.
    + unfold sayisal in *.
      change (nx.edges (nx.add_node (G self) dugum _))
        with (nx.edges (nx.dugum_hazirla (G self) dugum)).
      by rewrite edges_hazirla.
  - apply Forall_cons in Hc as [Hk Hc]. apply Forall_cons in Hc as [Hh _]. split.
    + unfold nx.add_edge; simpl. apply yalin_hazirla; [by apply hazirla_iyi|done|].
      by apply yalin_hazirla.
    + by apply sayisal_add_edge.
  - unfold akis_ata. destruct (nx.has_edge (G self) kaynak hedef); simpl; [|done].
    split; [done|by apply sayisal_hat_degistir].
  - rewrite hesapla_acilim.
    destruct (ozellikli_ya_da_degil (nx.nodes (G self))) as [Hall|Hex];
      [|by rewrite mcf_grafik_kur_ozelliksiz].
    rewrite mcf_grafik_kur_ayna by done.
    destruct (ns (mcf_aynasi (G self))) as [cozum|e] eqn:Hcozum; [|done].
    cbn [fst]. rewrite cozum_sonrasi_G. split; [done|].
    apply sayisal_hepsini_aktar.
    pose proof (Hns _ _ Hcozum) as Hkeys. rewrite anahtarlar_ayna in Hkeys.
    rewrite Forall_forall in Hkeys, Hy. apply Forall_forall. intros k Hk.
    by apply Hy, Hkeys.
Qed.

(** X11: flow fields stay numbers.  When the identifiers given to
    [dugum_ekle] and [hat_ekle] are strings or integers and the dictionary of
    the solver is keyed by nodes of the graph it was given, then after any
    sequence of calls every flow field holds a number, and
    [darbogazlari_bul] returns a list (it does not raise) at every
    threshold. *)
Theorem cagrilar_sayisal ns ad0 (cs : list cagri) esik_yuzdesi :
  (∀ g cozum, ns g = Dondu cozum →
     Forall (fun k => k ∈ Sozluk.anahtarlar (nx._node g)) (Sozluk.anahtarlar cozum.2)) →
  Forall (fun c => Forall yalin (cagri_dugumleri c)) cs →
  let self := foldl (cagir ns) (yeni ad0) cs in
  sayisal (G self) ∧ ∃ l, darbogazlari_bul self esik_yuzdesi = Dondu l.
Proof.
  intros Hns Hcs. cbv zeta.
  assert (∀ self, iyi_sebeke self ∧ sonuclar_tutarli self →
          Forall yalin (Sozluk.anahtarlar (nx._node (G self))) ∧ sayisal (G self) →
          sayisal (G (foldl (cagir ns) self cs))) as Hgenel.
  { induction Hcs as [|c cs Hc Hcs IH]; intros self Hself Hy; simpl.
    - by destruct Hy.
    - destruct (cagir_korur ns self c Hself) as (H1 & H2 & _).
      apply IH; [done|]. apply cagir_yalin; try done. by destruct Hself. }
  assert (sayisal (G (foldl (cagir ns) (yeni ad0) cs))) as Hs.
  { apply Hgenel.
    - split; [apply yeni_iyi|by left].
    - split; constructor. }
  split; [done|]. eexists. by apply darbogazlari_bul_sayisal.
Qed.

Lemma toplam_denetleyen_dugum_anahtarli g cozum :
  toplam_denetleyen (0%Q, []) g = Dondu cozum →
  Forall (fun k => k ∈ Sozluk.anahtarlar (nx._node g)) (Sozluk.anahtarlar cozum.2).
Proof.
  unfold toplam_denetleyen. destruct (Qeq_bool (toplam_demand g) 0); [|done].
  intros [= <-]. constructor.
Defined.

Lemma cagrilar_sayisal_ornek :
  let cs := [DugumEkle (Ad "A") 0 10; DugumEkle (Ad "B") 10 0;
             HatEkle (Ad "A") (Ad "B") 20 1 0; AkisAta (Ad "A") (Ad "B") 30; Hesapla] in
  Forall (fun c => Forall yalin (cagri_dugumleri c)) cs ∧
  sayisal (G (foldl (cagir (toplam_denetleyen (0%Q, []))) (yeni "t") cs)) ∧
  ∃ l, darbogazlari_bul (foldl (cagir (toplam_denetleyen (0%Q, []))) (yeni "t") cs) 90
       = Dondu l.
Proof.
  cbv zeta.
  assert (Forall (fun c => Forall yalin (cagri_dugumleri c))
            [DugumEkle (Ad "A") 0 10; DugumEkle (Ad "B") 10 0;
             HatEkle (Ad "A") (Ad "B") 20 1 0; AkisAta (Ad "A") (Ad "B") 30; Hesapla])
    as Hcs by (repeat constructor).
  split; [exact Hcs|].
  apply (cagrilar_sayisal (toplam_denetleyen (0%Q, [])) "t" _ 90).
  - apply toplam_denetleyen_dugum_anahtarli.
  - exact Hcs.
Defined.

(** ** Bottlenecks: errors and thresholds *)

Lemma darbogaz_tara_acilim esik darbogazlar es :
  darbogaz_tara esik darbogazlar es
  = if existsb bozuk_hat es then Firlatti TypeError
    else Dondu (darbogazlar ++ omap (darbogaz_adayi esik) es).
Proof.
  revert darbogazlar. induction es as [|e es IH]; intros acc; simpl.
  - by rewrite app_nil_r.
  - unfold darbogaz_ekle, bozuk_hat at 1, darbogaz_adayi at 1.
    destruct (Qgt_bool (kapasite e.2) 0); simpl.
    + destruct (akis e.2) as [a|d]; simpl; [|done].
      destruct (Qle_bool esik (a / kapasite e.2 * 100)); simpl; rewrite IH.
      * by rewrite <- app_assoc.
      * done.
    + rewrite IH. by destruct (akis e.2).
Qed.

Lemma darbogazlari_bul_acilim self esik :
  darbogazlari_bul self esik
  = if existsb bozuk_hat (nx.edges (G self)) then Firlatti TypeError
    else Dondu (sirala (omap (darbogaz_adayi esik) (nx.edges (G self)))).
Proof.
  unfold darbogazlari_bul. rewrite darbogaz_tara_acilim.
  by destruct (existsb bozuk_hat (nx.edges (G self))).
Qed.

Lemma bozuk_hat_var es :
  existsb bozuk_hat es = true ↔
  ∃ u v h d, (u, v, h) ∈ es ∧ (0 < kapasite h)%Q ∧ akis h = IcSozluk d.
Proof.
  rewrite existsb_exists. split.
  - intros ([[u v] h] & Hin%list_elem_of_In & Hb). unfold bozuk_hat in Hb.
    apply andb_true_iff in Hb as [Hk Ha]. apply Qgt_bool_iff in Hk. simpl in *.
    destruct (akis h) as [a|d] eqn:Hakis; [done|]. by exists u, v, h, d.
  - intros (u & v & h & d & Hin & Hk & Ha). exists (u, v, h).
    split; [by apply list_elem_of_In|]. unfold bozuk_hat. simpl. rewrite Ha.
    apply andb_true_iff. split; [by apply Qgt_bool_iff|done].
Qed.

(** X12: when [darbogazlari_bul] raises.  It raises, and then [TypeError],
    exactly when some line of positive capacity has a flow field that is not
    a number, whatever the threshold; otherwise it returns a list.  A line of
    capacity 0 or less is skipped before its flow field is read, so it never
    makes the call fail (and nothing is divided by zero). *)
Theorem darbogazlari_bul_hata self esik_yuzdesi :
  (darbogazlari_bul self esik_yuzdesi = Firlatti TypeError ↔
   ∃ u v h d, (u, v, h) ∈ nx.edges (G self) ∧ (0 < kapasite h)%Q ∧ akis h = IcSozluk d) ∧
  ((∃ l, darbogazlari_bul self esik_yuzdesi = Dondu l) ↔
   ∀ u v h, (u, v, h) ∈ nx.edges (G self) → (0 < kapasite h)%Q → ∃ a, akis h = Sayi a).
Proof.
  rewrite darbogazlari_bul_acilim. rewrite <- bozuk_hat_var.
  destruct (existsb bozuk_hat (nx.edges (G self))) eqn:Hb.
  - split; [done|]. split; [by intros [l [=]]|].
    intros Hall. apply bozuk_hat_var in Hb as (u & v & h & d & Hin & Hk & Ha).
    destruct (Hall u v h Hin Hk) as [a Ha']. congruence.
  - split; [done|]. split; [|by eexists].
    intros _ u v h Hin Hk. destruct (akis h) as [a|d] eqn:Ha; [by exists a|].
    assert (existsb bozuk_hat (nx.edges (G self)) = true); [|congruence].
    apply bozuk_hat_var. by exists u, v, h, d.
Qed.

Lemma azalan_gecisli : Transitive
  (fun x y : Darbogaz.t => (Darbogaz.kullanim_yuzdesi y <= Darbogaz.kullanim_yuzdesi x)%Q).
Proof. intros x y z Hxy Hyz. by eapply Qle_trans. Qed.

Lemma filter_yerlestir (P : Darbogaz.t → bool) x l :
  azalan l →
  List.filter P (yerlestir x l)
  = if P x then yerlestir x (List.filter P l) else List.filter P l.
Proof.
  intros Hs. apply (Sorted_StronglySorted azalan_gecisli) in Hs.
  induction Hs as [|y r Hr IH Hy]; simpl.
  - by destruct (P x).
  - destruct (Qle_bool (Darbogaz.kullanim_yuzdesi y) (Darbogaz.kullanim_yuzdesi x)) eqn:Hle.
    + simpl. destruct (P x); [|done].
      destruct (P y); simpl; [by rewrite Hle|].
      destruct (List.filter P r) as [|z rest] eqn:Hf; simpl; [done|].
      assert (In z (List.filter P r)) as Hz by (rewrite Hf; by left).
      apply filter_In in Hz as [Hz _]. rewrite Forall_forall in Hy.
      apply list_elem_of_In in Hz. specialize (Hy z Hz). simpl in Hy.
      apply Qle_bool_iff in Hle.
      assert (Qle_bool (Darbogaz.kullanim_yuzdesi z) (Darbogaz.kullanim_yuzdesi x) = true)
        as -> by (apply Qle_bool_iff; by eapply Qle_trans).
      done.
    + simpl. rewrite IH. destruct (P y), (P x); simpl; try done.
      by rewrite Hle.
Qed.

Lemma filter_sirala (P : Darbogaz.t → bool) l :
  List.filter P (sirala l) = sirala (List.filter P l).
Proof.
  induction l as [|x l IH]; simpl; [done|].
  rewrite filter_yerlestir by apply sirala_azalan.
  rewrite IH. by destruct (P x).
Qed.

Lemma omap_cons_acilim {A B : Type} (f : A → option B) x l :
  omap f (x :: l) = match f x with Some y => y :: omap f l | None => omap f l end.
Proof. done. Qed.

Lemma aday_esik esik1 esik2 e :
  (esik1 <= esik2)%Q →
  darbogaz_adayi esik2 e
  = match darbogaz_adayi esik1 e with
    | Some d => if Qle_bool esik2 (Darbogaz.kullanim_yuzdesi d) then Some d else None
    | None => None
    end.
Proof.
  intros Hle. unfold darbogaz_adayi.
  destruct (akis e.2) as [a|d]; [|done].
  destruct (Qgt_bool (kapasite e.2) 0); simpl; [|done].
  destruct (Qle_bool esik2 (a / kapasite e.2 * 100)) eqn:H2;
    destruct (Qle_bool esik1 (a / kapasite e.2 * 100)) eqn:H1; simpl;
    rewrite ?H2; try done.
  apply Qle_bool_iff in H2.
  assert (Qle_bool esik1 (a / kapasite e.2 * 100) = true); [|congruence].
  apply Qle_bool_iff. by eapply Qle_trans.
Qed.

Lemma omap_aday_esik esik1 esik2 es :
  (esik1 <= esik2)%Q →
  omap (darbogaz_adayi esik2) es
  = esigi_gecenler esik2 (omap (darbogaz_adayi esik1) es).
Proof.
  intros Hle. unfold esigi_gecenler. induction es as [|e es IH]; [done|].
  rewrite !omap_cons_acilim, IH, (aday_esik esik1 esik2 e Hle).
  destruct (darbogaz_adayi esik1 e) as [d|]; [|done]. simpl.
  by destruct (Qle_bool esik2 (Darbogaz.kullanim_yuzdesi d)).
Qed.

(** X13: raising the threshold only removes entries.  When
    [darbogazlari_bul] returns [l] at a threshold, then at every higher
    threshold it returns the entries of [l] whose utilisation reaches the
    higher threshold, in the order they have in [l]. *)
Theorem darbogaz_esik_yukseltme self esik1 esik2 l :
  (esik1 <= esik2)%Q →
  darbogazlari_bul self esik1 = Dondu l →
  darbogazlari_bul self esik2 = Dondu (esigi_gecenler esik2 l).
Proof.
  intros Hle. rewrite !darbogazlari_bul_acilim.
  destruct (existsb bozuk_hat (nx.edges (G self))); [done|].
  intros [= <-]. f_equal. rewrite (omap_aday_esik esik1 esik2) by done.
  unfold esigi_gecenler. by rewrite filter_sirala.
Qed.

Lemma darbogaz_esik_yukseltme_ornek :
  ∃ l, darbogazlari_bul uc_hat 50 = Dondu l ∧ length l = 3%nat ∧
       darbogazlari_bul uc_hat 90 = Dondu (esigi_gecenler 90 l) ∧
       length (esigi_gecenler 90 l) = 2%nat.
Proof.
  eexists. split; [by vm_compute|]. split; [by vm_compute|]. split; [|by vm_compute].
  apply (darbogaz_esik_yukseltme uc_hat 50 90).
  - by vm_compute.
  - by vm_compute.
Defined.

(** ** A node named after a line *)

Lemma hat_bul_hepsini_aktar flow_dict g u v :
  nx.hat_bul (hepsini_aktar flow_dict g) u v
  = akis_yaz (aktarilan_akis flow_dict u v) <$> nx.hat_bul g u v.
Proof.
  unfold nx.hat_bul, hepsini_aktar; simpl.
  induction (nx._adj g) as [|[u' nbrs] adj IH]; simpl; [done|].
  destruct (decide (u = u')) as [->|Hu]; [|done].
  clear IH. induction nbrs as [|[v' h] nbrs IH]; simpl; [done|].
  by destruct (decide (v = v')) as [->|Hv].
Qed.

(** X14: the one case in which the write-back finds its key.  When the
    dictionary of the solver has the pair [(u, v)] among its keys (the pair
    is itself a node) and [(u, v)] is a line of positive capacity of a
    well-formed network, a successful solve stores in the flow field of that
    line the dictionary found under the pair, not a number, and
    [darbogazlari_bul] then raises [TypeError] at every threshold. *)
Theorem demet_dugumu_akisi_bozar ns self mcf_graph cozum u v h d esik_yuzdesi :
  nx_iyi (G self) →
  mcf_grafik_kur (G self) = Dondu mcf_graph →
  ns mcf_graph = Dondu cozum →
  Sozluk.bul cozum.2 (Demet u v) = Some d →
  (u, v, h) ∈ nx.edges (G self) →
  (0 < kapasite h)%Q →
  let self' := (min_maliyet_akis_hesapla ns self).1.1 in
  nx.hat_bul (G self') u v
    = Some {| kapasite := kapasite h; maliyet := maliyet h; akis := IcSozluk d |} ∧
  darbogazlari_bul self' esik_yuzdesi = Firlatti TypeError.
Proof.
  intros Hg Hkur Hns Hd Hin Hk. cbv zeta. rewrite hesapla_acilim, Hkur, Hns.
  cbn [fst].
  assert (nx.hat_bul (G (cozum_sonrasi self cozum).1) u v
          = Some {| kapasite := kapasite h; maliyet := maliyet h; akis := IcSozluk d |})
    as Hb.
  { rewrite cozum_sonrasi_G, hat_bul_hepsini_aktar.
    apply (edges_hat_bul _ _ _ _ Hg) in Hin. rewrite Hin.
    unfold aktarilan_akis, akis_tablosu in *. by rewrite Hd. }
  split; [done|].
  rewrite darbogazlari_bul_acilim.
  assert (existsb bozuk_hat (nx.edges (G (cozum_sonrasi self cozum).1)) = true) as ->;
    [|done].
  apply bozuk_hat_var.
  exists u, v, {| kapasite := kapasite h; maliyet := maliyet h; akis := IcSozluk d |}, d.
  split_and!; [|exact Hk|done].
  apply edges_hat_bul; [|exact Hb].
  rewrite cozum_sonrasi_G, <- foldl_aktarim_hepsi. by apply foldl_aktarim_iyi.
Qed.

Lemma demetli_iyi : iyi_sebeke demetli.
Proof.
  unfold demetli. apply hat_ekle_iyi. do 3 apply dugum_ekle_iyi. apply yeni_iyi.
Qed.

Lemma demet_dugumu_akisi_bozar_ornek :
  nx_iyi (G demetli) ∧
  (Ad "A", Ad "B", {| kapasite := 20; maliyet := 1; akis := Sayi 0 |})
    ∈ nx.edges (G demetli) ∧
  nx.hat_bul (G (min_maliyet_akis_hesapla demetli_cozucu demetli).1.1) (Ad "A") (Ad "B")
    = Some {| kapasite := 20; maliyet := 1; akis := IcSozluk [] |} ∧
  darbogazlari_bul (min_maliyet_akis_hesapla demetli_cozucu demetli).1.1 90
    = Firlatti TypeError.
Proof.
  assert ((Ad "A", Ad "B", {| kapasite := 20; maliyet := 1; akis := Sayi 0 |})
            ∈ nx.edges (G demetli)) as Hin by (vm_compute; by left).
  split; [apply demetli_iyi|]. split; [exact Hin|].
  apply (demet_dugumu_akisi_bozar demetli_cozucu demetli (mcf_aynasi (G demetli))
           (10%Q, [(Ad "A", [(Ad "B", 10%Q)]); (Ad "B", []);
                   (Demet (Ad "A") (Ad "B"), [])])
           (Ad "A") (Ad "B") {| kapasite := 20; maliyet := 1; akis := Sayi 0 |} [] 90).
  - apply demetli_iyi.
  - by vm_compute.
  - done.
  - by vm_compute.
  - exact Hin.
  - by vm_compute.
Defined.

(** ** The drawing attributes *)

Lemma map_bak {A B : Type} (f : A → B) (l : list A) (i : nat) :
  map f l !! i = f <$> l !! i.
Proof.
  revert i. induction l as [|x l IH]; intros [|i]; simpl; auto.
Qed.

Lemma hat_cizimleri_tara_acilim cizim es :
  hat_cizimleri_tara cizim es
  = if existsb bozuk_hat es then Firlatti TypeError
    else Dondu (cizim.1 ++ map hat_kalinligi es, cizim.2 ++ map hat_rengi es).
Proof.
  revert cizim. induction es as [|e es IH]; intros [ws cs]; simpl.
  - by rewrite !app_nil_r.
  - unfold hat_cizimi, bozuk_hat at 1, hat_kalinligi at 1, hat_rengi at 1.
    destruct (Qgt_bool (kapasite e.2) 0); simpl.
    + destruct (akis e.2) as [a|d]; simpl; [|done].
      rewrite IH. simpl. by rewrite <- !app_assoc.
    + rewrite IH. simpl. rewrite <- !app_assoc. by destruct (akis e.2).
Qed.

Lemma bozuk_degil_sayi es e :
  existsb bozuk_hat es = false → e ∈ es → (0 < kapasite e.2)%Q →
  ∃ a, akis e.2 = Sayi a.
Proof.
  intros Hb Hin Hk. destruct (akis e.2) as [a|d] eqn:Ha; [by exists a|].
  assert (existsb bozuk_hat es = true); [|congruence].
  apply bozuk_hat_var. destruct e as [[u v] h]. by exists u, v, h, d.
Qed.

(** X15: the red lines of the drawing are the default bottlenecks.  When the
    edge loop of [gorselleştir] completes, it has computed one width and one
    colour for each line, in the order of the edges; [darbogazlari_bul(90)]
    then returns as well, a line is red exactly when it is in that list, and
    gray exactly when its capacity is not positive. *)
Theorem hat_renkleri_darbogazlarla_uyumlu self kalinliklar kenar_renkleri :
  hat_cizimleri self = Dondu (kalinliklar, kenar_renkleri) →
  length kalinliklar = length (nx.edges (G self)) ∧
  length kenar_renkleri = length (nx.edges (G self)) ∧
  ∃ l, darbogazlari_bul self 90 = Dondu l ∧
       ∀ i e, nx.edges (G self) !! i = Some e →
         (kenar_renkleri !! i = Some Red ↔
            ∃ d, darbogaz_adayi 90 e = Some d ∧ d ∈ l) ∧
         (kenar_renkleri !! i = Some Gray ↔ (kapasite e.2 <= 0)%Q).
Proof.
  unfold hat_cizimleri. rewrite hat_cizimleri_tara_acilim, darbogazlari_bul_acilim.
  destruct (existsb bozuk_hat (nx.edges (G self))) eqn:Hb; [done|].
  simpl. intros [= <- <-]. rewrite !length_map. split_and!; [done|done|].
  eexists. split; [done|]. intros i e Hi. rewrite map_bak, Hi. simpl.
  assert (e ∈ nx.edges (G self)) as Hin by (by eapply list_elem_of_lookup_2).
  unfold hat_rengi. destruct (Qgt_bool (kapasite e.2) 0) eqn:Hk.
  - apply Qgt_bool_iff in Hk.
    destruct (bozuk_degil_sayi _ _ Hb Hin Hk) as [a Ha]. rewrite Ha. split.
    + split.
      * destruct (Qle_bool 0.9 (a / kapasite e.2)) eqn:H9;
          [|by destruct (Qle_bool 0.7 (a / kapasite e.2))].
        intros _. apply Qle_bool_iff in H9. eexists. split.
        -- apply darbogaz_adayi_Some. exists a. split_and!; [done|done| |done]. lra.
        -- rewrite sirala_perm. apply list_elem_of_omap. exists e. split; [done|].
           apply darbogaz_adayi_Some. exists a. split_and!; [done|done| |done]. lra.
      * intros (d & Hd & _). apply darbogaz_adayi_Some in Hd as (a' & Ha' & _ & H90 & _).
        rewrite Ha in Ha'. injection Ha' as <-.
        assert (Qle_bool 0.9 (a / kapasite e.2) = true) as ->; [|done].
        apply Qle_bool_iff. lra.
    + split.
      * destruct (Qle_bool 0.9 (a / kapasite e.2)); [done|].
        by destruct (Qle_bool 0.7 (a / kapasite e.2)).
      * intros Hle. lra.
  - apply Qgt_bool_false in Hk. split; [|done]. split; [done|].
    intros (d & Hd & _). apply darbogaz_adayi_Some in Hd as (a' & _ & Hpos & _). lra.
Qed.

Lemma hat_renkleri_darbogazlarla_uyumlu_ornek :
  ∃ ws cs, hat_cizimleri uc_hat = Dondu (ws, cs) ∧
           cs = [Red; Green; Red] ∧
           length ws = length (nx.edges (G uc_hat)) ∧
           length cs = length (nx.edges (G uc_hat)) ∧
           ∃ l, darbogazlari_bul uc_hat 90 = Dondu l ∧
                ∀ i e, nx.edges (G uc_hat) !! i = Some e →
                  (cs !! i = Some Red ↔
                     ∃ d, darbogaz_adayi 90 e = Some d ∧ d ∈ l) ∧
                  (cs !! i = Some Gray ↔ (kapasite e.2 <= 0)%Q).
Proof.
  eexists _, _. split; [vm_compute; reflexivity|]. split; [reflexivity|].
  apply (hat_renkleri_darbogazlarla_uyumlu uc_hat). vm_compute. reflexivity.
Defined.







(** ** The report *)

Lemma ozellik_ayrimi (ns : list (dugum_id * option dugum_verisi)) :
  Forall (fun na => is_Some na.2) ns ∨ Exists (fun na => na.2 = None) ns.
Proof.
  induction ns as [|[n [d|]] ns [IH|IH]].
  - by left.
  - left. constructor; [by eexists|done].
  - right. by apply Exists_cons_tl.
  - right. by apply Exists_cons_hd.
  - right. by apply Exists_cons_hd.
Qed.

Lemma tip_say_acilim t ns say :
  Forall (fun na => is_Some na.2) ns →
  tip_say t ns say = Dondu (say + tip_sayisi t ns)%nat.
Proof.
  intros H. revert say. unfold tip_sayisi.
  induction H as [|[n o] ns [d Hd] _ IH]; intros say; simpl in *.
  - f_equal. lia.
  - subst o. rewrite IH. destruct (decide (tip d = t)) as [He|He].
    + rewrite bool_decide_eq_true_2 by done. simpl. f_equal. lia.
    + by rewrite bool_decide_eq_false_2 by done.
Qed.

Lemma tip_say_ozelliksiz t ns say :
  Exists (fun na => na.2 = None) ns → tip_say t ns say = Firlatti (KeyError "tip").
Proof.
  intros H. revert say. induction H as [[n o] ns Hx|[n o] ns _ IH]; intros say; simpl in *.
  - by subst o.
  - destruct o; [apply IH|done].
Qed.

Lemma ozellik_topla_acilim k alan ns toplam :
  Forall (fun na => is_Some na.2) ns →
  ozellik_topla k alan ns toplam
  = Dondu (foldl Qplus toplam (omap (fun na => alan <$> na.2) ns)).
Proof.
  intros H. revert toplam.
  induction H as [|[n o] ns [d Hd] _ IH]; intros toplam; [done|].
  simpl in Hd. subst o. rewrite omap_cons_acilim. simpl. apply IH.
Qed.

Lemma tip_sayisi_toplami ns :
  Forall (fun na => is_Some na.2) ns →
  (tip_sayisi TipKaynak ns + tip_sayisi TipHedef ns + tip_sayisi TipTransfer ns)%nat
  = length ns.
Proof.
  unfold tip_sayisi. induction 1 as [|[n o] ns [d Hd] _ IH]; [done|].
  simpl in *. subst o. destruct (tip d); simpl; lia.
Qed.

Lemma rapor_acilim self :
  Forall (fun na => is_Some na.2) (nx.nodes (G self)) →
  rapor_olustur self
  = yazici_bagla (rapor_ozeti self, Dondu tt) (fun _ =>
      yazici_bagla (rapor_akis_sonuclari self) (fun _ =>
        yazici_bagla (rapor_darbogazlar self) (fun _ => yazdir RKapanis))).
Proof.
  intros H. unfold rapor_olustur.
  rewrite !tip_say_acilim, !ozellik_topla_acilim by done.
  unfold yazdir, sessiz, rapor_ozeti, toplam_uretim, toplam_talep, Qtopla. simpl.
  destruct (rapor_akis_sonuclari self) as [o1 [[]|e1]]; [|done].
  simpl. destruct (rapor_darbogazlar self) as [o2 [[]|e2]]; done.
Qed.

Lemma rapor_akis_sonuclari_tutarli self :
  sonuclar_tutarli self →
  rapor_akis_sonuclari self = ([], Dondu tt) ∨
  ∃ q, sonuclar self !! "toplam_maliyet" = Some (SMaliyet q) ∧
       rapor_akis_sonuclari self = ([RAkisSonuclari; RToplamMaliyet q], Dondu tt).
Proof.
  unfold rapor_akis_sonuclari. intros [->|(a & q & ->)].
  - left. by rewrite lookup_empty.
  - right. exists q. by rewrite lookup_insert_eq.
Qed.

Lemma darbogaz_satirlari_imap (g : nat → nat) l :
  darbogaz_satirlari (imap (fun i db => RDarbogaz (g i) db) l)
  = imap (fun i db => (g i, db)) l.
Proof.
  revert g. induction l as [|x l IH]; intros g; [done|].
  change (imap (fun i db => RDarbogaz (g i) db) (x :: l))
    with (RDarbogaz (g 0%nat) x :: imap (fun i db => RDarbogaz ((g ∘ S) i) db) l).
  change (imap (fun i db => (g i, db)) (x :: l))
    with ((g 0%nat, x) :: imap (fun i db => ((g ∘ S) i, db)) l).
  rewrite <- (IH (g ∘ S)). done.
Qed.

Lemma darbogaz_satirlari_app l1 l2 :
  darbogaz_satirlari (l1 ++ l2) = darbogaz_satirlari l1 ++ darbogaz_satirlari l2.
Proof. apply omap_app. Qed.

Lemma rapor_darbogazlar_acilim self l :
  darbogazlari_bul self 90 = Dondu l →
  ∃ bolum, rapor_darbogazlar self = (bolum, Dondu tt) ∧
           darbogaz_satirlari bolum = imap (fun i db => (S i, db)) (take 5 l) ∧
           (l = [] → bolum = []).
Proof.
  intros Hl. unfold rapor_darbogazlar, sessiz. rewrite Hl. simpl.
  destruct l as [|x l]; simpl.
  - by exists [].
  - eexists. split; [done|]. split; [|done].
    unfold darbogaz_satirlari. rewrite !omap_cons_acilim.
    apply (darbogaz_satirlari_imap S (take 5 (x :: l))).
Qed.

Lemma guclu_sirali_app {A : Type} (R : A → A → Prop) (l1 l2 : list A) :
  StronglySorted R (l1 ++ l2) → ∀ x y, x ∈ l1 → y ∈ l2 → R x y.
Proof.
  induction l1 as [|a l1 IH]; simpl; intros Hs x y Hx Hy.
  - by apply elem_of_nil in Hx.
  - apply StronglySorted_inv in Hs as [Hs Ha].
    apply elem_of_cons in Hx as [->|Hx]; [|by apply IH].
    rewrite Forall_forall in Ha. apply Ha, elem_of_app. by right.
Qed.

Lemma edges_hepsini_aktar_uzunluk flow_dict (g : nx.DiGraph dugum_verisi hat_verisi) :
  length (nx.edges (hepsini_aktar flow_dict g)) = length (nx.edges g).
Proof.
  unfold nx.edges, hepsini_aktar. simpl.
  induction (nx._adj g) as [|[u nbrs] r IH]; simpl; [done|].
  by rewrite !length_app, IH, !length_map.
Qed.

(** X17: the report stops at a node without attributes.  When some node was
    only created by [hat_ekle] as an endpoint, [rapor_olustur] prints the
    title, the heading and the two sizes, and then raises [KeyError('tip')]:
    no role count, no total, no bottleneck is printed. *)
Theorem rapor_ozelliksiz_dugumde_kesilir self :
  Exists (fun na => na.2 = None) (nx.nodes (G self)) →
  rapor_olustur self
  = ([ RBaslik (ad self); ROzet;
       RDugumSayisi (length (nx.nodes (G self)));
       RHatSayisi (length (nx.edges (G self))) ],
     Firlatti (KeyError "tip")).
Proof.
  intros H. unfold rapor_olustur. by rewrite !tip_say_ozelliksiz.
Qed.

Lemma rapor_ozelliksiz_dugumde_kesilir_ornek :
  Exists (fun na => na.2 = None) (nx.nodes (G eksik_uclu)) ∧
  rapor_olustur eksik_uclu
  = ([ RBaslik "eksik uclu"; ROzet; RDugumSayisi 2; RHatSayisi 1 ],
     Firlatti (KeyError "tip")).
Proof.
  assert (Exists (fun na => na.2 = None) (nx.nodes (G eksik_uclu))) as H.
  { apply Exists_cons_tl, Exists_cons_hd. reflexivity. }
  split; [exact H|]. exact (rapor_ozelliksiz_dugumde_kesilir eksik_uclu H).
Defined.

(** X18: the report completes on a network built with attributes.  When every
    node has attributes, [sonuclar] is as the methods leave it and every flow
    field is a number, [rapor_olustur] does not raise: it prints the nine
    summary lines, whose three role counts add up to the number of nodes and
    whose totals are the sums of the production and of the demand, then its
    optional sections, and the closing line last. *)
Theorem rapor_tamamlanir self :
  Forall (fun na => is_Some na.2) (nx.nodes (G self)) →
  sonuclar_tutarli self →
  sayisal (G self) →
  (∃ govde, rapor_olustur self = (rapor_ozeti self ++ govde ++ [RKapanis], Dondu tt)) ∧
  (tip_sayisi TipKaynak (nx.nodes (G self))
   + tip_sayisi TipHedef (nx.nodes (G self))
   + tip_sayisi TipTransfer (nx.nodes (G self)))%nat = length (nx.nodes (G self)).
Proof.
  intros Hn Hs Hg. split; [|by apply tip_sayisi_toplami].
  rewrite rapor_acilim by done.
  destruct (rapor_darbogazlar_acilim self _ (darbogazlari_bul_sayisal self 90 Hg))
    as (bolum & Hb & _).
  rewrite Hb.
  destruct (rapor_akis_sonuclari_tutarli self Hs) as [->|(q & _ & ->)].
  - exists bolum. done.
  - exists ([RAkisSonuclari; RToplamMaliyet q] ++ bolum). done.
Qed.

Lemma rapor_tamamlanir_ornek :
  (∃ govde, rapor_olustur ornek_sebeke_olustur
            = (rapor_ozeti ornek_sebeke_olustur ++ govde ++ [RKapanis], Dondu tt)) ∧
  (tip_sayisi TipKaynak (nx.nodes (G ornek_sebeke_olustur))
   + tip_sayisi TipHedef (nx.nodes (G ornek_sebeke_olustur))
   + tip_sayisi TipTransfer (nx.nodes (G ornek_sebeke_olustur)))%nat
  = length (nx.nodes (G ornek_sebeke_olustur)).
Proof.
  apply (rapor_tamamlanir ornek_sebeke_olustur).
  - vm_compute. repeat (constructor; [eexists; reflexivity|]). constructor.
  - left. vm_compute. reflexivity.
  - vm_compute. repeat (constructor; [exact I|]). constructor.
Defined.

(** X19: the report after a successful solve.  Whenever the dictionary of the
    solver is keyed by strings or integers, the report printed right after a
    successful solve is exactly the nine summary lines of the network as it
    was, the heading and the cost the solver returned, and the closing line:
    it never has a bottleneck section, whatever flows the solver found. *)
Theorem cozum_sonrasi_rapor ns self mcf_graph cozum :
  mcf_grafik_kur (G self) = Dondu mcf_graph →
  ns mcf_graph = Dondu cozum →
  Forall yalin (Sozluk.anahtarlar cozum.2) →
  rapor_olustur (min_maliyet_akis_hesapla ns self).1.1
  = (rapor_ozeti self ++ [RAkisSonuclari; RToplamMaliyet cozum.1; RKapanis], Dondu tt) ∧
  (min_maliyet_akis_hesapla ns self).2.2 = cozum.1.
Proof.
  intros Hkur Hns Hy.
  assert (Forall (fun e => akis e.2 = Sayi 0)
                 (nx.edges (G (min_maliyet_akis_hesapla ns self).1.1))) as Hsifir.
  { apply Forall_forall. intros [[u v] h] Hin.
    by apply (cozum_yalin_sifir ns self mcf_graph cozum Hkur Hns Hy u v h). }
  assert (darbogazlari_bul (min_maliyet_akis_hesapla ns self).1.1 90 = Dondu []) as Hdb.
  { rewrite darbogazlari_bul_sayisal.
    - by rewrite sifir_akis_aday_yok.
    - unfold sayisal. eapply Forall_impl; [exact Hsifir|]. intros e He. by rewrite He. }
  destruct (rapor_darbogazlar_acilim _ _ Hdb) as (bolum & Hb & _ & Hbos).
  rewrite (Hbos eq_refl) in Hb. clear Hsifir Hdb Hbos.
  assert (Forall (fun na => is_Some na.2) (nx.nodes (G self))) as Hn.
  { destruct (ozellik_ayrimi (nx.nodes (G self))) as [H|H]; [done|].
    rewrite mcf_grafik_kur_ozelliksiz in Hkur by done. done. }
  revert Hb. rewrite hesapla_acilim, Hkur, Hns. cbn [fst snd]. intros Hb.
  assert (nx.nodes (G (cozum_sonrasi self cozum).1) = nx.nodes (G self)) as Hnodes
    by (by rewrite cozum_sonrasi_G).
  split; [|done].
  rewrite rapor_acilim by (by rewrite Hnodes). rewrite Hb.
  unfold rapor_akis_sonuclari, rapor_ozeti, toplam_uretim, toplam_talep.
  rewrite Hnodes, cozum_sonrasi_G, edges_hepsini_aktar_uzunluk.
  cbn [cozum_sonrasi fst sonuclar ad]. by rewrite lookup_insert_eq.
Qed.

Lemma cozum_sonrasi_rapor_ornek :
  mcf_grafik_kur (G iki_dugum) = Dondu (mcf_aynasi (G iki_dugum)) ∧
  Forall yalin (Sozluk.anahtarlar iki_dugum_tablosu) ∧
  rapor_olustur (min_maliyet_akis_hesapla iki_dugum_cozucu iki_dugum).1.1
  = (rapor_ozeti iki_dugum ++ [RAkisSonuclari; RToplamMaliyet 10; RKapanis], Dondu tt) ∧
  (min_maliyet_akis_hesapla iki_dugum_cozucu iki_dugum).2.2 = 10%Q.
Proof.
  assert (Forall yalin (Sozluk.anahtarlar iki_dugum_tablosu)) as Hy
    by (repeat constructor).
  split; [by vm_compute|]. split; [exact Hy|].
  apply (cozum_sonrasi_rapor iki_dugum_cozucu iki_dugum
           (mcf_aynasi (G iki_dugum)) (10%Q, iki_dugum_tablosu)).
  - by vm_compute.
  - done.
  - exact Hy.
Defined.

(** X20: the report lists the five most loaded lines.  When the report
    completes its bottleneck section, its numbered lines are the first five
    entries of [darbogazlari_bul(90)], numbered from 1 in that order, and no
    bottleneck left out is more loaded than a listed one. *)
Theorem rapor_en_kritik_darbogazlar self l :
  Forall (fun na => is_Some na.2) (nx.nodes (G self)) →
  sonuclar_tutarli self →
  darbogazlari_bul self 90 = Dondu l →
  darbogaz_satirlari (rapor_olustur self).1 = imap (fun i db => (S i, db)) (take 5 l) ∧
  ∀ db db', db ∈ take 5 l → db' ∈ drop 5 l →
    (Darbogaz.kullanim_yuzdesi db' <= Darbogaz.kullanim_yuzdesi db)%Q.
Proof.
  intros Hn Hs Hl. split.
  - rewrite rapor_acilim by done.
    destruct (rapor_darbogazlar_acilim self l Hl) as (bolum & -> & Hb & _).
    destruct (rapor_akis_sonuclari_tutarli self Hs) as [->|(q & _ & ->)];
      cbn [yazici_bagla fst snd yazdir]; rewrite !darbogaz_satirlari_app, Hb;
      unfold rapor_ozeti, darbogaz_satirlari; rewrite !omap_cons_acilim;
      simpl; by rewrite app_nil_r.
  - intros db db' Hdb Hdb'.
    assert (azalan l) as Ha.
    { rewrite darbogazlari_bul_acilim in Hl.
      destruct (existsb bozuk_hat (nx.edges (G self))); [done|].
      injection Hl as <-. apply sirala_azalan. }
    apply (Sorted_StronglySorted azalan_gecisli) in Ha.
    rewrite <- (take_drop 5 l) in Ha.
    by apply (guclu_sirali_app _ _ _ Ha db db').
Qed.

Lemma rapor_en_kritik_darbogazlar_ornek :
  ∃ l, darbogazlari_bul uc_hat 90 = Dondu l ∧ length l = 2%nat ∧
       darbogaz_satirlari (rapor_olustur uc_hat).1
       = imap (fun i db => (S i, db)) (take 5 l) ∧
       ∀ db db', db ∈ take 5 l → db' ∈ drop 5 l →
         (Darbogaz.kullanim_yuzdesi db' <= Darbogaz.kullanim_yuzdesi db)%Q.
Proof.
  eexists. split; [vm_compute; reflexivity|]. split; [reflexivity|].
  apply (rapor_en_kritik_darbogazlar uc_hat).
  - vm_compute. repeat (constructor; [eexists; reflexivity|]). constructor.
  - left. vm_compute. reflexivity.
  - vm_compute. reflexivity.
Defined.
